(** * Climate-Risk dashboard (app.py): a shallow embedding and its properties

    The script loads a CSV of disaster events, keeps four climate-driven
    disaster types, fills missing impact figures, filters by a year range
    and a selection of types, and derives metrics and chart data.

    Conventions of the embedding.
    - A pandas DataFrame is a list of rows in index order; the five columns
      the script touches are the fields of [Row].
    - A float64 cell is an exact rational ([Qc]); the missing value NaN is
      [None].  Rounding of float64 arithmetic is not modelled.
    - pandas and the Python built-ins are modelled by their documented
      behaviour; the Streamlit / matplotlib rendering calls are recorded as
      entries of the screen, and raise in the two cases the script itself
      can bring about: a slider whose two bounds are equal, and a bar plot
      of an empty Series.
    - Objects that the script names (df, df_climate, filtered_df) live in a
      heap of DataFrames addressed by references, so that in-place column
      assignment and fresh results can be told apart.
    - One run of the script is modelled; the memoisation of [load_data] by
      st.cache_data across reruns is not. *)

From Stdlib Require Import List ZArith QArith Qcanon String Ascii Bool Lia.
From Stdlib Require Import Sorting.Permutation Sorting.Sorted.
Import ListNotations.

Local Open Scope string_scope.
Local Open Scope Z_scope.

(** ** Data model *)

(** A float64 cell: [None] is NaN. *)
Definition cell : Type := option Qc.

Definition num (z : Z) : Qc := Q2Qc (inject_Z z).

Record Row : Type := mkRow {
  Year : Z;
  Disaster_Type : string;
  Total_Deaths : cell;
  Total_Affected : cell;
  Total_Damages : cell     (* column "Total Damages ('000 US$)" *)
}.

Definition DataFrame : Type := list Row.

(** The three numeric impact columns. *)
Inductive ImpactCol : Type := Deaths | Affected | Damages.

Definition get_col (c : ImpactCol) (r : Row) : cell :=
  match c with
  | Deaths => Total_Deaths r
  | Affected => Total_Affected r
  | Damages => Total_Damages r
  end.

Definition set_col (c : ImpactCol) (v : cell) (r : Row) : Row :=
  match c with
  | Deaths => mkRow (Year r) (Disaster_Type r) v (Total_Affected r) (Total_Damages r)
  | Affected => mkRow (Year r) (Disaster_Type r) (Total_Deaths r) v (Total_Damages r)
  | Damages => mkRow (Year r) (Disaster_Type r) (Total_Deaths r) (Total_Affected r) v
  end.

(** [df[c]]: a column as a Series. *)
Definition column (c : ImpactCol) (df : DataFrame) : list cell :=
  map (get_col c) df.

(** [df[c] = s] for a Series [s] that carries the index of [df]. *)
Fixpoint assign_column (c : ImpactCol) (s : list cell) (df : DataFrame) : DataFrame :=
  match df, s with
  | r :: df', v :: s' => set_col c v r :: assign_column c s' df'
  | _, _ => df
  end.

(** ** Python built-ins used by the script *)

Module py.

Section Sorting.
Context {A : Type} (leb : A -> A -> bool).

Fixpoint insert (x : A) (l : list A) : list A :=
  match l with
  | [] => [x]
  | y :: l' => if leb x y then x :: y :: l' else y :: insert x l'
  end.

(** [sorted(l)]: a stable sort by [leb]. *)
Definition sorted (l : list A) : list A := fold_right insert [] l.
End Sorting.

(** [min(l)] and [max(l)] of a list of integers: [None] stands for the
    ValueError that Python raises on an empty list. *)
Definition min (l : list Z) : option Z :=
  match l with
  | [] => None
  | x :: l' => Some (fold_left Z.min l' x)
  end.

Definition max (l : list Z) : option Z :=
  match l with
  | [] => None
  | x :: l' => Some (fold_left Z.max l' x)
  end.

End py.

(** ** pandas operations used by the script *)

Module pd.

(** [Series.isin(values)] on a column of strings. *)
Definition isin (values : list string) (x : string) : bool :=
  existsb (String.eqb x) values.

(** [Series.between(left, right)], inclusive on both sides. *)
Definition between (left right : Z) (x : Z) : bool :=
  (left <=? x) && (x <=? right).

(** [df[mask]] with the mask computed row by row. *)
Definition getitem_mask (mask : Row -> bool) (df : DataFrame) : DataFrame :=
  filter mask df.

(** [Series.fillna(value)]: a NaN fill value leaves the Series as it is. *)
Definition fillna (value : cell) (s : list cell) : list cell :=
  match value with
  | None => s
  | Some v => map (fun x => match x with None => Some v | Some _ => x end) s
  end.

(** The non-NaN entries of a Series. *)
Fixpoint dropna (s : list cell) : list Qc :=
  match s with
  | [] => []
  | None :: s' => dropna s'
  | Some v :: s' => v :: dropna s'
  end.

(** [Series.sum()]: NaN is skipped, the empty sum is 0.  The sum is exact:
    neither the wrap-around of an int64 column nor the rounding of a
    float64 one is modelled. *)
Definition sum (s : list cell) : Qc :=
  fold_right Qcplus (num 0) (dropna s).

(** [Series.mean()]: NaN is skipped; NaN when nothing is left. *)
Definition mean (s : list cell) : cell :=
  match dropna s with
  | [] => None
  | _ :: _ => Some (sum s / num (Z.of_nat (List.length (dropna s))))%Qc
  end.



(** [Series.unique()]: the distinct values in order of first appearance. *)
Fixpoint unique {A : Type} (eqb : A -> A -> bool) (l : list A) : list A :=
  match l with
  | [] => []
  | x :: l' => x :: filter (fun y => negb (eqb x y)) (unique eqb l')
  end.

Definition count_eq {A : Type} (eqb : A -> A -> bool) (x : A) (l : list A) : nat :=
  List.length (filter (eqb x) l).

(** [df.groupby('Year').size()]: one entry per distinct key, keys in
    ascending order (groupby sorts its keys), with the size of the group. *)
Definition groupby_size (keys : list Z) : list (Z * nat) :=
  map (fun k => (k, count_eq Z.eqb k keys)) (py.sorted Z.leb (unique Z.eqb keys)).

(** [Series.value_counts()]: one entry per distinct value, by descending
    count, ties in order of first appearance. *)
Definition value_counts (values : list string) : list (string * nat) :=
  py.sorted (fun a b => Nat.leb (snd b) (snd a))
    (map (fun v => (v, count_eq String.eqb v values)) (unique String.eqb values)).

(** State of the running sums that [DataFrame.corr] keeps for one pair of
    columns (Welford's method). *)
Record welford : Type := mkWelford {
  nobs : Z;
  meanx : Qc;
  meany : Qc;
  ssqdm_x : Qc;
  ssqdm_y : Qc;
  covxy : Qc
}.

Definition welford0 : welford :=
  mkWelford 0 (num 0) (num 0) (num 0) (num 0) (num 0).

(** One row of the inner loop; a row in which either value is NaN is
    skipped. *)
Definition welford_step (w : welford) (obs : cell * cell) : welford :=
  match obs with
  | (Some vx, Some vy) =>
      let n := nobs w + 1 in
      let dx := (vx - meanx w)%Qc in
      let dy := (vy - meany w)%Qc in
      let mx := (meanx w + num 1 / num n * dx)%Qc in
      let my := (meany w + num 1 / num n * dy)%Qc in
      mkWelford n mx my
        (ssqdm_x w + (vx - mx) * dx)%Qc
        (ssqdm_y w + (vy - my) * dy)%Qc
        (covxy w + (vx - mx) * dy)%Qc
  | _ => w
  end.

(** An entry of the correlation matrix.  [coef_quot c r] stands for the
    number c / sqrt r (clipped to [-1, 1]), which is kept as the pair since
    the square root of a rational need not be rational. *)
Inductive coef : Type :=
| coef_nan
| coef_quot (c r : Qc).

Definition Qc_is_zero (q : Qc) : bool := Qeq_bool q 0.

(** The Pearson coefficient of two columns with [min_periods = 1]: NaN
    with no complete pair of observations, and NaN when the divisor
    sqrt (ssqdm_x * ssqdm_y) is zero.  The sums run over the exact values;
    the conversion to float64 that [corr] starts with can make distinct
    large values equal, which is not modelled. *)
Definition pearson (xs ys : list cell) : coef :=
  let w := fold_left welford_step (combine xs ys) welford0 in
  if nobs w <? 1 then coef_nan
  else if Qc_is_zero (ssqdm_x w * ssqdm_y w)%Qc then coef_nan
  else coef_quot (covxy w) (ssqdm_x w * ssqdm_y w)%Qc.

(** [df[cols].corr()]. *)
Definition corr (cols : list ImpactCol) (df : DataFrame) : list (list coef) :=
  map (fun cx => map (fun cy => pearson (column cx df) (column cy df)) cols) cols.

End pd.

(** ** The filter step (app.py, lines 65-69) *)

Definition mask (selected_years : Z * Z) (selected_disasters : list string)
    (r : Row) : bool :=
  pd.between (fst selected_years) (snd selected_years) (Year r)
  && pd.isin selected_disasters (Disaster_Type r).

Definition filtered_df (df_climate : DataFrame) (selected_years : Z * Z)
    (selected_disasters : list string) : DataFrame :=
  pd.getitem_mask (mask selected_years selected_disasters) df_climate.

(** ** Preprocessing (app.py, lines 39-47), on values *)

Definition climate_disasters : list string :=
  ["Flood"; "Storm"; "Wildfire"; "Extreme temperature"].

(** Line 40: the rows whose type is on the allow-list. *)
Definition restrict (df : DataFrame) : DataFrame :=
  pd.getitem_mask (fun r => pd.isin climate_disasters (Disaster_Type r)) df.

(** Lines 43-47 as one column assignment each. *)
Definition fill_zero (c : ImpactCol) (df : DataFrame) : DataFrame :=
  assign_column c (pd.fillna (Some (num 0)) (column c df)) df.

Definition fill_mean (c : ImpactCol) (df : DataFrame) : DataFrame :=
  assign_column c (pd.fillna (pd.mean (column c df)) (column c df)) df.

Definition handle_missing (df_climate : DataFrame) : DataFrame :=
  fill_mean Damages (fill_zero Affected (fill_zero Deaths df_climate)).

Definition preprocess (df : DataFrame) : DataFrame :=
  handle_missing (restrict df).

(** ** Sidebar defaults (lines 51-62) and derived data (lines 72-109) *)

Definition years (df_climate : DataFrame) : list Z :=
  py.sorted Z.leb (pd.unique Z.eqb (map Year df_climate)).

Definition disaster_options (df_climate : DataFrame) : list string :=
  py.sorted String.leb (pd.unique String.eqb (map Disaster_Type df_climate)).

(** The value the slider starts with; [None] when [min(years)] raises. *)
Definition default_years (df_climate : DataFrame) : option (Z * Z) :=
  match py.min (years df_climate), py.max (years df_climate) with
  | Some lo, Some hi => Some (lo, hi)
  | _, _ => None
  end.

Definition total_events (view : DataFrame) : nat := List.length view.
Definition total_deaths (view : DataFrame) : Qc := pd.sum (column Deaths view).
Definition total_affected (view : DataFrame) : Qc := pd.sum (column Affected view).
Definition total_damages (view : DataFrame) : Qc := pd.sum (column Damages view).

Definition yearly_trends (view : DataFrame) : list (Z * nat) :=
  pd.groupby_size (map Year view).

Definition disaster_counts (view : DataFrame) : list (string * nat) :=
  pd.value_counts (map Disaster_Type view).

Definition impact_cols : list ImpactCol := [Deaths; Affected; Damages].

Definition correlation_matrix (view : DataFrame) : list (list pd.coef) :=
  pd.corr impact_cols view.

(** ** The script as a program: heap, screen and exceptions *)

(** A Python exception: its class and [str(e)]. *)
Record Exn : Type := Exception { exn_class : string; exn_str : string }.

Inductive Outcome (A : Type) : Type :=
| Ok (a : A)
| Raise (e : Exn).
Arguments Ok {A} a.
Arguments Raise {A} e.

(** What the script has put on the page so far. *)
Inductive Element : Type :=
| page_config (page_title layout : string)
| title (body : string)
| markdown (body : string)
| error (body : string)
| header (body : string)
| sidebar_header (body : string)
| sidebar_slider (label : string) (min_value max_value : Z) (value : Z * Z)
| sidebar_multiselect (label : string) (options default : list string)
| metric (label : string) (value : Qc)
| line_plot (points : list (Z * nat))
| bar_plot (bars : list (string * nat))
| heatmap (data : list (list pd.coef))
| dataframe (data : DataFrame).

Definition ref : Type := nat.

Record World : Type := mkWorld {
  heap : list DataFrame;      (* the DataFrame objects, by reference *)
  screen : list Element;      (* page elements, oldest first *)
  stdout : list string
}.

Definition M (A : Type) : Type := World -> Outcome A * World.

Definition ret {A : Type} (a : A) : M A := fun w => (Ok a, w).

Definition bind {A B : Type} (m : M A) (k : A -> M B) : M B :=
  fun w =>
    match m w with
    | (Ok a, w') => k a w'
    | (Raise e, w') => (Raise e, w')
    end.

Definition raise {A : Type} (e : Exn) : M A := fun w => (Raise e, w).

(** [try: body except Exception as e: handler(e)]. *)
Definition try_except {A : Type} (body : M A) (handler : Exn -> M A) : M A :=
  fun w =>
    match body w with
    | (Ok a, w') => (Ok a, w')
    | (Raise e, w') => handler e w'
    end.

Declare Scope prog_scope.
Delimit Scope prog_scope with prog.
Notation "x <- m ;; k" := (bind m (fun x => k))
  (at level 61, m at next level, right associativity) : prog_scope.
Notation "m ;; k" := (bind m (fun _ => k))
  (at level 61, right associativity) : prog_scope.

(** A new DataFrame object. *)
Definition new_df (d : DataFrame) : M ref :=
  fun w => (Ok (List.length (heap w)),
            mkWorld (heap w ++ [d]) (screen w) (stdout w)).

(** The contents of an object. *)
Definition deref (r : ref) : M DataFrame :=
  fun w =>
    match nth_error (heap w) r with
    | Some d => (Ok d, w)
    | None => (Raise (Exception "ReferenceError" "no such object"), w)
    end.

Fixpoint update_nth {A : Type} (n : nat) (x : A) (l : list A) : list A :=
  match n, l with
  | _, [] => []
  | O, _ :: l' => x :: l'
  | S n', y :: l' => y :: update_nth n' x l'
  end.

(** [df[c] = s]: the object behind [r] is changed in place. *)
Definition setitem (r : ref) (c : ImpactCol) (s : list cell) : M unit :=
  fun w =>
    match nth_error (heap w) r with
    | Some d => (Ok tt, mkWorld (update_nth r (assign_column c s d) (heap w))
                          (screen w) (stdout w))
    | None => (Raise (Exception "ReferenceError" "no such object"), w)
    end.

(** [df[mask]] and [df.copy()] both return a new object. *)
Definition getitem (r : ref) (m : Row -> bool) : M ref :=
  (d <- deref r ;; new_df (pd.getitem_mask m d))%prog.

Definition copy (r : ref) : M ref :=
  (d <- deref r ;; new_df d)%prog.

Definition show (e : Element) : M unit :=
  fun w => (Ok tt, mkWorld (heap w) (screen w ++ [e]) (stdout w)).

Definition print (s : string) : M unit :=
  fun w => (Ok tt, mkWorld (heap w) (screen w) (stdout w ++ [s])).

Definition lift_option {A : Type} (e : Exn) (o : option A) : M A :=
  match o with
  | Some a => ret a
  | None => raise e
  end.

(** The file system as the script sees it. *)
Record Disk : Type := mkDisk {
  path_exists : string -> bool;              (* os.path.exists *)
  read_csv : string -> Outcome DataFrame     (* pd.read_csv(path, encoding='latin-1') *)
}.

(** What the user has done with the two sidebar widgets; [None] is a widget
    left at its default. *)
Record UI : Type := mkUI {
  slider_input : option (Z * Z);
  multiselect_input : option (list string)
}.

Definition path_join (dir name : string) : string := dir ++ "\" ++ name.

Definition base_dir : string := "C:\Users\ADWAITH CM\Climate week".

Definition not_found_message : string :=
  "Error: Neither 'natural_disasters.csv' nor 'data2.csv' found. Please verify files are in the directory.".

(** A library call that returns or raises without touching the heap. *)
Definition call {A : Type} (o : Outcome A) : M A := fun w => (o, w).

(** Lines 19-34.  The inner [if] either returns from the function or leaves
    [file_path] set for the read that follows. *)
Definition load_data (disk : Disk) : M (option ref) :=
  try_except
    (let file_path := path_join base_dir "natural_disasters.csv" in
     located <-
       (if negb (path_exists disk file_path) then
          let file_path := path_join base_dir "data2.csv" in
          if negb (path_exists disk file_path) then
            show (error not_found_message) ;;
            ret (inl None)
          else ret (inr file_path)
        else ret (inr file_path)) ;;
     match located with
     | inl returned => ret returned
     | inr file_path =>
         d <- call (read_csv disk file_path) ;;
         df <- new_df d ;;
         print "Dataset loaded successfully" ;;
         ret (Some df)
     end)%prog
    (fun e =>
       show (error ("Error loading dataset: " ++ exn_str e)) ;;
       ret None)%prog.

Definition slider_error : Exn :=
  Exception "StreamlitAPIException"
    "Slider `min_value` must be less than the `max_value`.".

(** The two sidebar widgets: each shows itself and returns the user's
    choice, or its default when the user has not touched it.  The slider
    refuses a range whose two ends are the same. *)
Definition slider (ui : UI) (label : string) (min_value max_value : Z)
    (value : Z * Z) : M (Z * Z) :=
  if min_value =? max_value then raise slider_error
  else
    (show (sidebar_slider label min_value max_value value) ;;
     ret (match slider_input ui with Some v => v | None => value end))%prog.

Definition multiselect (ui : UI) (label : string) (options default : list string)
    : M (list string) :=
  (show (sidebar_multiselect label options default) ;;
   ret (match multiselect_input ui with Some v => v | None => default end))%prog.

Definition empty_sequence (f : string) : Exn :=
  Exception "ValueError" (f ++ "() arg is an empty sequence").

(** Lines 40-47: the allow-listed copy, then three assignments in place. *)
Definition load_and_filter (df : ref) : M ref :=
  (selected <- getitem df (fun r => pd.isin climate_disasters (Disaster_Type r)) ;;
   df_climate <- copy selected ;;
   c <- deref df_climate ;;
   setitem df_climate Deaths (pd.fillna (Some (num 0)) (column Deaths c)) ;;
   c <- deref df_climate ;;
   setitem df_climate Affected (pd.fillna (Some (num 0)) (column Affected c)) ;;
   c <- deref df_climate ;;
   setitem df_climate Damages (pd.fillna (pd.mean (column Damages c)) (column Damages c)) ;;
   ret df_climate)%prog.

(** Lines 50-62. *)
Definition sidebar (ui : UI) (df_climate : ref) : M ((Z * Z) * list string) :=
  (show (sidebar_header "Filter Options") ;;
   c <- deref df_climate ;;
   let years := years c in
   lo <- lift_option (empty_sequence "min") (py.min years) ;;
   hi <- lift_option (empty_sequence "max") (py.max years) ;;
   selected_years <- slider ui "Select Year Range" lo hi (lo, hi) ;;
   selected_disasters <- multiselect ui "Select Disaster Types"
                           (disaster_options c) (disaster_options c) ;;
   ret (selected_years, selected_disasters))%prog.

(** Lines 65-69. *)
Definition apply_filters (df_climate : ref) (selected_years : Z * Z)
    (selected_disasters : list string) : M ref :=
  getitem df_climate (mask selected_years selected_disasters).

Definition index_error : Exn :=
  Exception "IndexError" "index 0 is out of bounds for axis 0 with size 0".

(** Line 101, [disaster_counts.plot(kind='bar', ...)]: the bar plot of an
    empty Series raises. *)
Definition plot_bar (counts : list (string * nat)) : M unit :=
  match counts with
  | [] => raise index_error
  | _ :: _ => show (bar_plot counts)
  end.

(** Lines 72-117: metrics, chart data and the table. *)
Definition render (filtered : ref) : M unit :=
  (f <- deref filtered ;;
   show (metric "Total Events" (num (Z.of_nat (total_events f)))) ;;
   show (metric "Total Deaths" (total_deaths f)) ;;
   show (metric "Total Affected" (total_affected f)) ;;
   show (metric "Total Damages (USD)" (total_damages f)) ;;
   show (header "Temporal Analysis of Climate Disasters") ;;
   show (line_plot (yearly_trends f)) ;;
   show (header "Disaster Distribution and Impact Analysis") ;;
   plot_bar (disaster_counts f) ;;
   show (heatmap (correlation_matrix f)) ;;
   show (header "Detailed Dataset View") ;;
   show (dataframe f))%prog.

(** One user interaction on a loaded dataset: filter, aggregate, render. *)
Definition pass (df_climate : ref) (selected_years : Z * Z)
    (selected_disasters : list string) : M unit :=
  (filtered <- apply_filters df_climate selected_years selected_disasters ;;
   render filtered)%prog.

(** The text under the title (line breaks left out). *)
Definition description : string :=
  "This dashboard provides an interactive analysis of climate-driven disasters (Flood, Storm, Wildfire, Extreme Temperature) to support Disaster Risk Reduction (DRR) strategies, utilizing the same dataset as the accompanying Jupyter Notebook.".

Definition primary_path : string := path_join base_dir "natural_disasters.csv".
Definition fallback_path : string := path_join base_dir "data2.csv".

(** The page as it stands when [load_data] is called. *)
Definition page_top : list Element :=
  [page_config "Climate Risk Analysis Dashboard" "wide";
   title "Climate-Driven Disaster Risk Reduction Analysis";
   markdown description].

(** The whole script. *)
Definition main (disk : Disk) (ui : UI) : M unit :=
  (show (page_config "Climate Risk Analysis Dashboard" "wide") ;;
   show (title "Climate-Driven Disaster Risk Reduction Analysis") ;;
   show (markdown description) ;;
   df <- load_data disk ;;
   match df with
   | None => ret tt
   | Some df =>
       df_climate <- load_and_filter df ;;
       selection <- sidebar ui df_climate ;;
       pass df_climate (fst selection) (snd selection)
   end)%prog.

Definition world0 : World := mkWorld [] [] [].

(** ** Notions used in the statements *)

(** [correlation_matrix.loc[cx, cy]]. *)
Definition col_index (c : ImpactCol) : nat :=
  match c with Deaths => 0 | Affected => 1 | Damages => 2 end%nat.

Definition loc (m : list (list pd.coef)) (cx cy : ImpactCol) : option pd.coef :=
  match nth_error m (col_index cx) with
  | Some row => nth_error row (col_index cy)
  | None => None
  end.

(** A column has zero variance over a view when the values present in it
    are all the same (over exact numbers this is the same as a vanishing
    sum of squared deviations); a column without any value counts too. *)
Definition zero_variance (c : ImpactCol) (view : DataFrame) : Prop :=
  forall r1 r2 v1 v2,
    In r1 view -> In r2 view ->
    get_col c r1 = Some v1 -> get_col c r2 = Some v2 -> v1 = v2.

Definition nan_matrix : list (list pd.coef) :=
  [[pd.coef_nan; pd.coef_nan; pd.coef_nan];
   [pd.coef_nan; pd.coef_nan; pd.coef_nan];
   [pd.coef_nan; pd.coef_nan; pd.coef_nan]].

(** Invariants of the running sums of [pd.pearson] while every x (every y)
    seen so far was [k]: the mean is [k] and no squared deviation has been
    added. *)
Definition flat_x (k : Qc) (w : pd.welford) : Prop :=
  0 <= pd.nobs w /\
  (pd.nobs w = 0 -> pd.meanx w = 0%Qc) /\
  (pd.nobs w <> 0 -> pd.meanx w = k) /\
  pd.ssqdm_x w = 0%Qc.

Definition flat_y (k : Qc) (w : pd.welford) : Prop :=
  0 <= pd.nobs w /\
  (pd.nobs w = 0 -> pd.meany w = 0%Qc) /\
  (pd.nobs w <> 0 -> pd.meany w = k) /\
  pd.ssqdm_y w = 0%Qc.

(** What [load_data] leaves behind when it has read [d] (a new object, one
    line on stdout), and when it gives up with a message. *)
Definition loaded (d : DataFrame) (w : World) : Outcome (option ref) * World :=
  (Ok (Some (List.length (heap w))),
   mkWorld (heap w ++ [d]) (screen w) (stdout w ++ ["Dataset loaded successfully"])).

Definition gave_up (message : string) (w : World) : Outcome (option ref) * World :=
  (Ok None, mkWorld (heap w) (screen w ++ [error message]) (stdout w)).

Definition read_result (disk : Disk) (file_path : string) (w : World)
    : Outcome (option ref) * World :=
  match read_csv disk file_path with
  | Ok d => loaded d w
  | Raise e => gave_up ("Error loading dataset: " ++ exn_str e) w
  end.

(** ** Sample data *)

Definition flood_without_damages : DataFrame :=
  [mkRow 2000 "Flood" (Some (num 3)) (Some (num 40)) None].

Definition two_events : DataFrame :=
  [mkRow 2001 "Storm" (Some (num 1)) (Some (num 2)) (Some (num 3));
   mkRow 1999 "Flood" (Some (num 4)) (Some (num 5)) (Some (num 6))].

Definition one_event : DataFrame :=
  [mkRow 2005 "Wildfire" (Some (num 7)) (Some (num 80)) (Some (num 900))].

(** A directory that holds only data2.csv, and an empty one. *)
Definition disk_with_fallback : Disk :=
  mkDisk (fun p => String.eqb p fallback_path)
         (fun p => if String.eqb p fallback_path then Ok two_events
                   else Raise (Exception "FileNotFoundError" p)).

Definition empty_disk : Disk :=
  mkDisk (fun _ => false) (fun p => Raise (Exception "FileNotFoundError" p)).

Definition untouched : UI := mkUI None None.

(** A session in which the climate subset is object 0. *)
Definition sample_world : World := mkWorld [two_events] [] [].

(** What one pass over a view without rows has put on the page when the
    bar plot raises. *)
Definition page_until_bar : list Element :=
  [metric "Total Events" (num 0);
   metric "Total Deaths" (num 0);
   metric "Total Affected" (num 0);
   metric "Total Damages (USD)" (num 0);
   header "Temporal Analysis of Climate Disasters";
   line_plot [];
   header "Disaster Distribution and Impact Analysis"].

(** ** Further notions: the page of a view, widget values, more samples *)

(** What lines 72-117 put on the page for a view. *)
Definition view_page (view : DataFrame) : list Element :=
  [metric "Total Events" (num (Z.of_nat (total_events view)));
   metric "Total Deaths" (total_deaths view);
   metric "Total Affected" (total_affected view);
   metric "Total Damages (USD)" (total_damages view);
   header "Temporal Analysis of Climate Disasters";
   line_plot (yearly_trends view);
   header "Disaster Distribution and Impact Analysis";
   bar_plot (disaster_counts view);
   heatmap (correlation_matrix view);
   header "Detailed Dataset View";
   dataframe view].

(** What the sidebar puts on the page for a climate subset whose slider
    default is [dy]. *)
Definition sidebar_page (cs : DataFrame) (dy : Z * Z) : list Element :=
  [sidebar_header "Filter Options";
   sidebar_slider "Select Year Range" (fst dy) (snd dy) dy;
   sidebar_multiselect "Select Disaster Types" (disaster_options cs) (disaster_options cs)].

(** The values the two widgets return. *)
Definition chosen_years (ui : UI) (default : Z * Z) : Z * Z :=
  match slider_input ui with Some v => v | None => default end.

Definition chosen_types (ui : UI) (default : list string) : list string :=
  match multiselect_input ui with Some v => v | None => default end.

(** Two runs of the inner loop of [pd.pearson] on the same rows with the
    two columns exchanged. *)
Definition mirrored (w1 w2 : pd.welford) : Prop :=
  pd.nobs w1 = pd.nobs w2 /\
  pd.meanx w1 = pd.meany w2 /\
  pd.meany w1 = pd.meanx w2 /\
  pd.ssqdm_x w1 = pd.ssqdm_y w2 /\
  pd.ssqdm_y w1 = pd.ssqdm_x w2 /\
  pd.covxy w1 = pd.covxy w2.

(** The inner loop of [pd.pearson] run on a column against itself: both
    sides agree, and the sums of squares are not negative. *)
Definition on_diagonal (w : pd.welford) : Prop :=
  0 <= pd.nobs w /\
  pd.meanx w = pd.meany w /\
  pd.ssqdm_x w = pd.ssqdm_y w /\
  pd.covxy w = pd.ssqdm_x w /\
  (0 <= pd.ssqdm_x w)%Qc.

(** A row counts for a pair of columns when both values are present. *)
Definition both_present (obs : cell * cell) : bool :=
  match obs with
  | (Some _, Some _) => true
  | _ => false
  end.

(** Column [cx] does not vary over the rows of the view in which both
    [cx] and [cy] are present. *)
Definition constant_where_both (cx cy : ImpactCol) (view : DataFrame) : Prop :=
  forall r1 r2 v1 v2,
    In r1 view -> In r2 view ->
    get_col cx r1 = Some v1 -> get_col cy r1 <> None ->
    get_col cx r2 = Some v2 -> get_col cy r2 <> None ->
    v1 = v2.

(** A dataset without any row of an allow-listed type. *)
Definition earthquakes : DataFrame :=
  [mkRow 2010 "Earthquake" (Some (num 9)) None None;
   mkRow 2011 "Volcanic activity" None None None].

Definition disk_with_earthquakes : Disk :=
  mkDisk (fun p => String.eqb p primary_path)
         (fun p => if String.eqb p primary_path then Ok earthquakes
                   else Raise (Exception "FileNotFoundError" p)).

(** natural_disasters.csv exists but cannot be decoded; data2.csv is fine. *)
Definition disk_with_broken_primary : Disk :=
  mkDisk (fun _ => true)
         (fun p => if String.eqb p primary_path
                   then Raise (Exception "UnicodeDecodeError" "invalid data")
                   else Ok two_events).

(** A dataset with gaps in all three impact columns. *)
Definition gappy_events : DataFrame :=
  [mkRow 2003 "Flood" (Some (num 5)) None (Some (num 10));
   mkRow 2001 "Storm" None (Some (num 8)) None;
   mkRow 2003 "Flood" (Some (num 2)) (Some (num 1)) (Some (num 30));
   mkRow 2002 "Earthquake" (Some (num 70)) None (Some (num 500))].

(** The user has narrowed the years and kept floods only. *)
Definition floods_2002_2003 : UI := mkUI (Some (2002, 2003)) (Some ["Flood"]).

(** The user has narrowed the years and kept storms only. *)
Definition storms_2000_2001 : UI := mkUI (Some (2000, 2001)) (Some ["Storm"]).

(** A file whose only allow-listed row is one wildfire. *)
Definition disk_with_one_event : Disk :=
  mkDisk (fun p => String.eqb p primary_path)
         (fun p => if String.eqb p primary_path then Ok one_event
                   else Raise (Exception "FileNotFoundError" p)).

(** * Properties *)

(** ** Membership tests and masks *)

Lemma isin_spec (values : list string) (x : string) :
  pd.isin values x = true <-> In x values.
Proof.
  unfold pd.isin. rewrite existsb_exists. split.
  - intros [y [Hin Heq]]. apply String.eqb_eq in Heq. now subst.
  - intros Hin. exists x. split; [assumption | apply String.eqb_refl].
Qed.

Lemma between_spec (left right x : Z) :
  pd.between left right x = true <-> left <= x <= right.
Proof.
  unfold pd.between. rewrite andb_true_iff, !Z.leb_le. tauto.
Qed.

Lemma mask_spec (selected_years : Z * Z) (selected_disasters : list string) (r : Row) :
  mask selected_years selected_disasters r = true <->
  fst selected_years <= Year r <= snd selected_years /\
  In (Disaster_Type r) selected_disasters.
Proof.
  unfold mask. now rewrite andb_true_iff, between_spec, isin_spec.
Qed.

Lemma filter_all (A : Type) (p : A -> bool) (l : list A) :
  (forall x, In x l -> p x = true) -> filter p l = l.
Proof.
  induction l as [| a l IH]; intros Hall; simpl; [reflexivity |].
  rewrite (Hall a (or_introl eq_refl)). f_equal. apply IH.
  intros x Hx. apply Hall. now right.
Qed.

Lemma filter_idempotent (A : Type) (p : A -> bool) (l : list A) :
  filter p (filter p l) = filter p l.
Proof.
  apply filter_all. intros x Hx. now apply filter_In in Hx.
Qed.

(** C1. A row of the climate subset is in the filtered view exactly when
    its year lies between the two bounds of the year range, both included,
    and its disaster type is one of the selected types. *)
Theorem filtered_df_retains_iff (df_climate : DataFrame) (selected_years : Z * Z)
    (selected_disasters : list string) (r : Row) :
  In r (filtered_df df_climate selected_years selected_disasters) <->
  In r df_climate /\
  fst selected_years <= Year r <= snd selected_years /\
  In (Disaster_Type r) selected_disasters.
Proof.
  unfold filtered_df, pd.getitem_mask.
  now rewrite filter_In, mask_spec.
Qed.

(** The example of the specification: years 2000, 2001, 2002 with the range
    (2001, 2002) and the selection {Flood}. *)
Example filtered_df_example (d a g : cell) :
  filtered_df
    [mkRow 2000 "Flood" d a g; mkRow 2001 "Flood" d a g;
     mkRow 2001 "Storm" d a g; mkRow 2002 "Flood" d a g]
    (2001, 2002) ["Flood"]
  = [mkRow 2001 "Flood" d a g; mkRow 2002 "Flood" d a g].
Proof. reflexivity. Qed.


(** ** [sorted], [unique], [min] and [max] *)

Section SortedFacts.
Context {A : Type} (leb : A -> A -> bool).

Lemma insert_perm (x : A) (l : list A) :
  Permutation (py.insert leb x l) (x :: l).
Proof.
  induction l as [| y l IH]; simpl; [reflexivity |].
  destruct (leb x y); [reflexivity |].
  rewrite IH. apply perm_swap.
Qed.

Lemma sorted_perm (l : list A) : Permutation (py.sorted leb l) l.
Proof.
  induction l as [| x l IH]; simpl; [constructor |].
  rewrite insert_perm. now constructor.
Qed.

Lemma sorted_In (l : list A) (x : A) : In x (py.sorted leb l) <-> In x l.
Proof.
  split; apply Permutation_in; [| symmetry]; apply sorted_perm.
Qed.

End SortedFacts.

Section UniqueFacts.
Context {A : Type} (eqb : A -> A -> bool).
Hypothesis eqb_eq : forall a b, eqb a b = true <-> a = b.

Lemma unique_In (l : list A) (x : A) : In x (pd.unique eqb l) <-> In x l.
Proof.
  induction l as [| a l IH]; simpl; [reflexivity |].
  rewrite filter_In, IH. split.
  - intros [H | [H _]]; auto.
  - intros [H | H]; [now left |].
    destruct (eqb a x) eqn:E.
    + left. now apply eqb_eq.
    + right. now split.
Qed.

Lemma unique_NoDup (l : list A) : NoDup (pd.unique eqb l).
Proof.
  induction l as [| a l IH]; simpl; constructor.
  - rewrite filter_In. intros [_ H].
    assert (E : eqb a a = true) by now apply eqb_eq.
    now rewrite E in H.
  - now apply NoDup_filter.
Qed.

End UniqueFacts.

Lemma insert_sorted_lt (x : Z) (l : list Z) :
  StronglySorted Z.lt l -> ~ In x l -> StronglySorted Z.lt (py.insert Z.leb x l).
Proof.
  induction l as [| y l IH]; intros Hs Hx; simpl.
  - repeat constructor.
  - inversion Hs as [| ? ? Hs' Hall]; subst.
    assert (Hxy : x <> y) by (intros ->; apply Hx; now left).
    destruct (Z.leb_spec x y) as [Hle | Hlt].
    + constructor; [assumption |].
      constructor; [lia |].
      rewrite Forall_forall in *. intros z Hz. specialize (Hall z Hz). lia.
    + constructor.
      * apply IH; [assumption | intros H; apply Hx; now right].
      * rewrite Forall_forall in *. intros z Hz.
        apply (Permutation_in _ (insert_perm Z.leb x l)) in Hz.
        destruct Hz as [<- | Hz]; [assumption | now apply Hall].
Qed.

Lemma sorted_NoDup_lt (l : list Z) :
  NoDup l -> StronglySorted Z.lt (py.sorted Z.leb l).
Proof.
  induction 1 as [| x l Hx Hnd IH]; simpl; [constructor |].
  apply insert_sorted_lt; [assumption |].
  now rewrite sorted_In.
Qed.

Lemma fold_min_le (l : list Z) (x : Z) :
  fold_left Z.min l x <= x /\ forall y, In y l -> fold_left Z.min l x <= y.
Proof.
  revert x. induction l as [| a l IH]; intros x; simpl.
  - split; [lia | contradiction].
  - destruct (IH (Z.min x a)) as [H1 H2]. split; [lia |].
    intros y [<- | Hy]; [lia | now apply H2].
Qed.

Lemma fold_max_ge (l : list Z) (x : Z) :
  x <= fold_left Z.max l x /\ forall y, In y l -> y <= fold_left Z.max l x.
Proof.
  revert x. induction l as [| a l IH]; intros x; simpl.
  - split; [lia | contradiction].
  - destruct (IH (Z.max x a)) as [H1 H2]. split; [lia |].
    intros y [<- | Hy]; [lia | now apply H2].
Qed.

Lemma py_min_le (l : list Z) (m : Z) :
  py.min l = Some m -> forall y, In y l -> m <= y.
Proof.
  destruct l as [| x l]; simpl; [discriminate |].
  intros [= <-] y Hy. destruct (fold_min_le l x) as [H1 H2].
  destruct Hy as [<- | Hy]; [assumption | now apply H2].
Qed.

Lemma py_max_ge (l : list Z) (m : Z) :
  py.max l = Some m -> forall y, In y l -> y <= m.
Proof.
  destruct l as [| x l]; simpl; [discriminate |].
  intros [= <-] y Hy. destruct (fold_max_ge l x) as [H1 H2].
  destruct Hy as [<- | Hy]; [assumption | now apply H2].
Qed.

Lemma years_In (df_climate : DataFrame) (y : Z) :
  In y (years df_climate) <-> In y (map Year df_climate).
Proof.
  unfold years. rewrite sorted_In. apply unique_In. apply Z.eqb_eq.
Qed.

Lemma disaster_options_In (df_climate : DataFrame) (t : string) :
  In t (disaster_options df_climate) <-> In t (map Disaster_Type df_climate).
Proof.
  unfold disaster_options. rewrite sorted_In. apply unique_In. apply String.eqb_eq.
Qed.

(** The slider has a default exactly when the climate subset has a row. *)
Lemma default_years_defined (df_climate : DataFrame) :
  df_climate <> [] <-> exists lo hi, default_years df_climate = Some (lo, hi).
Proof.
  unfold default_years. split.
  - intros Hne. destruct df_climate as [| r df]; [contradiction |].
    assert (Hin : In (Year r) (years (r :: df))) by (apply years_In; now left).
    destruct (years (r :: df)) as [| y ys]; [contradiction |]. simpl. eauto.
  - intros [lo [hi H]] ->. discriminate.
Qed.

(** C10. With the slider and the multiselect at their defaults (the least
    and greatest year of the climate subset, and all of its disaster
    types), the filtered view is the climate subset itself. *)
Theorem default_filter_identity (df_climate : DataFrame) (selected_years : Z * Z) :
  default_years df_climate = Some selected_years ->
  filtered_df df_climate selected_years (disaster_options df_climate) = df_climate.
Proof.
  unfold default_years. intros Hdef.
  destruct (py.min (years df_climate)) as [lo |] eqn:Hlo; [| discriminate].
  destruct (py.max (years df_climate)) as [hi |] eqn:Hhi; [| discriminate].
  injection Hdef as <-.
  unfold filtered_df, pd.getitem_mask. apply filter_all. intros r Hr.
  apply mask_spec. simpl.
  assert (Hy : In (Year r) (years df_climate)) by (apply years_In; now apply in_map).
  repeat split.
  - now apply (py_min_le _ _ Hlo).
  - now apply (py_max_ge _ _ Hhi).
  - apply disaster_options_In. now apply in_map.
Qed.

Lemma default_filter_identity_witness :
  default_years two_events = Some (1999, 2001) /\
  filtered_df two_events (1999, 2001) (disaster_options two_events) = two_events.
Proof.
  split; [reflexivity |].
  apply (default_filter_identity two_events (1999, 2001)). reflexivity.
Defined.

(** ** Grouping by year *)

Lemma list_sum_perm (l l' : list nat) :
  Permutation l l' -> list_sum l = list_sum l'.
Proof.
  induction 1; simpl; lia.
Qed.

Lemma list_sum_map_add {A : Type} (f g : A -> nat) (l : list A) :
  list_sum (map (fun x => (f x + g x)%nat) l)
  = (list_sum (map f l) + list_sum (map g l))%nat.
Proof.
  induction l as [| a l IH]; simpl; lia.
Qed.

Lemma indicator_sum_absent (x : Z) (u : list Z) :
  ~ In x u -> list_sum (map (fun k => if k =? x then 1%nat else 0%nat) u) = 0%nat.
Proof.
  induction u as [| a u IH]; intros Hx; simpl; [reflexivity |].
  destruct (Z.eqb_spec a x) as [-> | Hne].
  - exfalso. apply Hx. now left.
  - apply IH. intros H. apply Hx. now right.
Qed.

Lemma indicator_sum_present (x : Z) (u : list Z) :
  NoDup u -> In x u ->
  list_sum (map (fun k => if k =? x then 1%nat else 0%nat) u) = 1%nat.
Proof.
  induction 1 as [| a u Ha Hnd IH]; intros Hx; simpl; [contradiction |].
  destruct (Z.eqb_spec a x) as [-> | Hne].
  - now rewrite indicator_sum_absent.
  - destruct Hx as [-> | Hx]; [contradiction | now apply IH].
Qed.

Lemma count_eq_cons (k x : Z) (l : list Z) :
  pd.count_eq Z.eqb k (x :: l)
  = ((if (k =? x)%Z then 1 else 0) + pd.count_eq Z.eqb k l)%nat.
Proof.
  unfold pd.count_eq. simpl. now destruct (k =? x).
Qed.

(** The groups of a list of keys split it: over any duplicate-free list
    that covers the keys, the group sizes add up to the number of keys. *)
Lemma group_sizes_total (u l : list Z) :
  NoDup u -> (forall x, In x l -> In x u) ->
  list_sum (map (fun k => pd.count_eq Z.eqb k l) u) = List.length l.
Proof.
  intros Hnd. induction l as [| x l IH]; intros Hcov.
  - unfold pd.count_eq. simpl. clear Hnd Hcov.
    induction u; simpl; auto.
  - rewrite (map_ext _ _ (fun k => count_eq_cons k x l)).
    assert (Hx : In x u) by (apply Hcov; now left).
    assert (Hl : forall y, In y l -> In y u) by (intros y Hy; apply Hcov; now right).
    rewrite list_sum_map_add, indicator_sum_present, IH by assumption.
    reflexivity.
Qed.

Lemma count_eq_rows (y : Z) (view : DataFrame) :
  pd.count_eq Z.eqb y (map Year view)
  = List.length (filter (fun r => Year r =? y) view).
Proof.
  unfold pd.count_eq. induction view as [| r view IH]; simpl; [reflexivity |].
  rewrite (Z.eqb_sym (Year r) y). destruct (y =? Year r); simpl; now rewrite IH.
Qed.

Lemma count_eq_pos (y : Z) (l : list Z) :
  (0 < pd.count_eq Z.eqb y l)%nat <-> In y l.
Proof.
  unfold pd.count_eq. induction l as [| x l IH]; simpl.
  - split; [lia | contradiction].
  - destruct (Z.eqb_spec y x) as [-> | Hne]; simpl.
    + split; [now left | lia].
    + rewrite IH. split; [now right | intros [H | H]; [congruence | assumption]].
Qed.

(** C7. The yearly trend lists the years of the view in strictly ascending
    order, pairs each of them with the number of rows of that year (so a
    pair is listed exactly for the years that occur), and the counts add up
    to the number of rows of the view. *)
Theorem yearly_trends_grouped_sorted (view : DataFrame) :
  StronglySorted Z.lt (map fst (yearly_trends view)) /\
  (forall y n, In (y, n) (yearly_trends view) <->
     n = List.length (filter (fun r => Year r =? y) view) /\ (0 < n)%nat) /\
  list_sum (map snd (yearly_trends view)) = List.length view.
Proof.
  unfold yearly_trends, pd.groupby_size.
  set (keys := map Year view).
  assert (Hnd : NoDup (pd.unique Z.eqb keys)) by (apply unique_NoDup, Z.eqb_eq).
  repeat split.
  - rewrite map_map. simpl. rewrite map_id. now apply sorted_NoDup_lt.
  - rewrite in_map_iff in H. destruct H as [k [[= <- <-] _]].
    apply count_eq_rows.
  - rewrite in_map_iff in H. destruct H as [k [[= <- <-] Hk]].
    rewrite sorted_In, (unique_In _ Z.eqb_eq) in Hk.
    exact (proj2 (count_eq_pos k keys) Hk).
  - intros [-> Hpos]. rewrite <- count_eq_rows in *. fold keys in Hpos |- *.
    apply in_map_iff. exists y. split; [reflexivity |].
    rewrite sorted_In, (unique_In _ Z.eqb_eq).
    exact (proj1 (count_eq_pos y keys) Hpos).
  - rewrite map_map. simpl.
    rewrite (list_sum_perm _ _ (Permutation_map _ (sorted_perm Z.leb _))).
    rewrite group_sizes_total; [subst keys; now rewrite length_map | assumption |].
    intros x Hx. now apply (unique_In _ Z.eqb_eq).
Qed.

(** ** Filling missing values *)

Lemma assign_column_map (c : ImpactCol) (g : Row -> cell) (df : DataFrame) :
  assign_column c (map g df) df = map (fun r => set_col c (g r) r) df.
Proof.
  induction df as [| r df IH]; simpl; [reflexivity | now rewrite IH].
Qed.

Lemma fillna_column (value : cell) (c : ImpactCol) (df : DataFrame) :
  pd.fillna value (column c df)
  = map (fun r => match get_col c r with
                  | Some v => Some v
                  | None => value
                  end) df.
Proof.
  unfold pd.fillna, column. destruct value as [q |].
  - rewrite map_map. apply map_ext. intros r. now destruct (get_col c r).
  - apply map_ext. intros r. now destruct (get_col c r).
Qed.

Lemma fill_value_rows (value : cell) (c : ImpactCol) (df : DataFrame) :
  assign_column c (pd.fillna value (column c df)) df
  = map (fun r => set_col c (match get_col c r with
                             | Some v => Some v
                             | None => value
                             end) r) df.
Proof.
  rewrite fillna_column. apply assign_column_map.
Qed.

Lemma column_set_other (c c' : ImpactCol) (g : Row -> cell) (df : DataFrame) :
  c <> c' -> column c' (map (fun r => set_col c (g r) r) df) = column c' df.
Proof.
  intros Hne. unfold column. rewrite map_map. apply map_ext.
  intros r. destruct c, c'; try reflexivity; contradiction.
Qed.

(** What lines 43-47 do to the rows of the type-filtered frame. *)
Lemma handle_missing_rows (df_climate : DataFrame) :
  handle_missing df_climate
  = map (fun r =>
           mkRow (Year r) (Disaster_Type r)
             (Some (match Total_Deaths r with Some v => v | None => num 0 end))
             (Some (match Total_Affected r with Some v => v | None => num 0 end))
             (match Total_Damages r with
              | Some v => Some v
              | None => pd.mean (column Damages df_climate)
              end))
        df_climate.
Proof.
  unfold handle_missing, fill_mean, fill_zero.
  rewrite !fill_value_rows.
  rewrite !column_set_other by discriminate.
  rewrite !map_map. apply map_ext. intros r. simpl.
  destruct (Total_Deaths r), (Total_Affected r), (Total_Damages r); reflexivity.
Qed.

Lemma num_neq_0 (z : Z) : z <> 0 -> num z <> 0%Qc.
Proof.
  intros Hz H. apply (f_equal this) in H.
  change (Qred (inject_Z z) = Qred 0) in H.
  apply Qred_eq_iff in H. unfold Qeq in H. simpl in H. lia.
Qed.



(** ** Preprocessing twice *)

Lemma restrict_handle_missing (df_climate : DataFrame) :
  restrict df_climate = df_climate ->
  restrict (handle_missing df_climate) = handle_missing df_climate.
Proof.
  intros Hfix. unfold restrict, pd.getitem_mask in *.
  apply filter_all. intros r Hr.
  rewrite handle_missing_rows, in_map_iff in Hr. destruct Hr as [r0 [<- Hr0]]. simpl.
  rewrite <- Hfix in Hr0. now apply filter_In in Hr0.
Qed.

Lemma handle_missing_idempotent (df_climate : DataFrame) :
  handle_missing (handle_missing df_climate) = handle_missing df_climate.
Proof.
  rewrite (handle_missing_rows (handle_missing df_climate)).
  set (m' := pd.mean (column Damages (handle_missing df_climate))).
  assert (Hm' : pd.mean (column Damages df_climate) = None -> m' = None).
  { intros Hm. subst m'.
    replace (column Damages (handle_missing df_climate))
      with (column Damages df_climate); [assumption |].
    rewrite handle_missing_rows, Hm. unfold column. rewrite map_map.
    apply map_ext. intros r. simpl. now destruct (Total_Damages r). }
  clearbody m'. rewrite handle_missing_rows, map_map.
  apply map_ext. intros r. simpl.
  destruct (Total_Damages r); [reflexivity |].
  destruct (pd.mean (column Damages df_climate)); [reflexivity |].
  now rewrite Hm'.
Qed.

(** C8. Restricting a dataset to the allow-listed disaster types a second
    time changes nothing: the same rows in the same order.  This holds for
    the bare selection, for the cleaned climate subset, and for the whole
    of preprocessing. *)
Theorem restrict_idempotent (df : DataFrame) :
  restrict (restrict df) = restrict df /\
  restrict (preprocess df) = preprocess df /\
  preprocess (preprocess df) = preprocess df.
Proof.
  assert (H1 : restrict (restrict df) = restrict df)
    by (unfold restrict, pd.getitem_mask; apply filter_idempotent).
  assert (H2 : restrict (preprocess df) = preprocess df)
    by (unfold preprocess; now apply restrict_handle_missing).
  repeat split; try assumption.
  unfold preprocess at 1. rewrite H2. unfold preprocess.
  apply handle_missing_idempotent.
Qed.

(** Counts are never missing after preprocessing. *)
Lemma preprocess_counts_present (df : DataFrame) (r : Row) :
  In r (preprocess df) -> Total_Deaths r <> None /\ Total_Affected r <> None.
Proof.
  unfold preprocess. rewrite handle_missing_rows, in_map_iff.
  intros [r0 [<- _]]. simpl. split; discriminate.
Qed.

(** Damages are not missing either as soon as one allow-listed row has a
    damages figure. *)
Lemma preprocess_damages_present (df : DataFrame) (r : Row) :
  pd.dropna (column Damages (restrict df)) <> [] ->
  In r (preprocess df) -> Total_Damages r <> None.
Proof.
  intros Hsome. unfold preprocess. rewrite handle_missing_rows, in_map_iff.
  intros [r0 [<- _]]. simpl.
  destruct (Total_Damages r0); [discriminate |].
  unfold pd.mean. destruct (pd.dropna (column Damages (restrict df)));
    [contradiction | discriminate].
Qed.

(** C6. On a dataset whose only allow-listed row has no damages figure the
    column mean is NaN, the fill changes nothing, and the damages of that
    row are still missing after preprocessing. *)
Theorem preprocess_all_damages_missing :
  restrict flood_without_damages = flood_without_damages /\
  pd.mean (column Damages (restrict flood_without_damages)) = None /\
  map Total_Damages (preprocess flood_without_damages) = [None].
Proof.
  repeat split.
Qed.

(** ** Correlation over a column without spread *)

Lemma one_over_one : (num 1 / num 1 = 1)%Qc.
Proof. apply Qc_is_canon. reflexivity. Qed.

Section ConstantColumn.
Variable k : Qc.

Lemma welford_mean_flat (n : Z) (m : Qc) :
  0 <= n -> (n = 0 -> m = 0%Qc) -> (n <> 0 -> m = k) ->
  (m + num 1 / num (n + 1) * (k - m) = k)%Qc.
Proof.
  intros Hn H0 H1. destruct (Z.eq_dec n 0) as [-> | Hne].
  - rewrite (H0 eq_refl). change (num (0 + 1)) with (num 1).
    rewrite one_over_one. ring.
  - rewrite (H1 Hne). ring.
Qed.

Lemma welford_step_flat_x (w : pd.welford) (obs : cell * cell) :
  flat_x k w -> (forall v, fst obs = Some v -> v = k) ->
  flat_x k (pd.welford_step w obs).
Proof.
  intros (Hn & H0 & H1 & Hs) Hobs.
  destruct obs as [[vx |] [vy |]]; simpl; try (repeat split; assumption).
  rewrite (Hobs vx eq_refl).
  pose proof (welford_mean_flat _ _ Hn H0 H1) as Hm.
  repeat split; simpl; try lia; intros; rewrite ?Hm, ?Hs; try reflexivity; ring.
Qed.

Lemma welford_step_flat_y (w : pd.welford) (obs : cell * cell) :
  flat_y k w -> (forall v, snd obs = Some v -> v = k) ->
  flat_y k (pd.welford_step w obs).
Proof.
  intros (Hn & H0 & H1 & Hs) Hobs.
  destruct obs as [[vx |] [vy |]]; simpl; try (repeat split; assumption).
  rewrite (Hobs vy eq_refl).
  pose proof (welford_mean_flat _ _ Hn H0 H1) as Hm.
  repeat split; simpl; try lia; intros; rewrite ?Hm, ?Hs; try reflexivity; ring.
Qed.

Lemma welford_fold_flat_x (l : list (cell * cell)) (w : pd.welford) :
  flat_x k w -> (forall obs v, In obs l -> fst obs = Some v -> v = k) ->
  flat_x k (fold_left pd.welford_step l w).
Proof.
  revert w. induction l as [| obs l IH]; intros w Hw Hl; simpl; [assumption |].
  apply IH.
  - apply welford_step_flat_x; [assumption |].
    intros v. apply Hl. now left.
  - intros o v Ho. apply Hl. now right.
Qed.

Lemma welford_fold_flat_y (l : list (cell * cell)) (w : pd.welford) :
  flat_y k w -> (forall obs v, In obs l -> snd obs = Some v -> v = k) ->
  flat_y k (fold_left pd.welford_step l w).
Proof.
  revert w. induction l as [| obs l IH]; intros w Hw Hl; simpl; [assumption |].
  apply IH.
  - apply welford_step_flat_y; [assumption |].
    intros v. apply Hl. now left.
  - intros o v Ho. apply Hl. now right.
Qed.

End ConstantColumn.

Lemma welford0_flat (k : Qc) : flat_x k pd.welford0 /\ flat_y k pd.welford0.
Proof.
  split; (repeat split; simpl; try lia; try reflexivity; intros H; now elim H).
Qed.

Lemma zero_variance_value (c : ImpactCol) (view : DataFrame) :
  zero_variance c view ->
  exists k, forall r v, In r view -> get_col c r = Some v -> v = k.
Proof.
  induction view as [| a view IH]; intros Hz.
  - exists 0%Qc. intros r v [].
  - destruct (get_col c a) as [va |] eqn:Ea.
    + exists va. intros r v Hr Hv.
      apply (Hz r a v va); simpl; auto.
    + destruct IH as [k Hk].
      * intros r1 r2 v1 v2 H1 H2. apply Hz; now right.
      * exists k. intros r v [<- | Hr] Hv; [congruence | now apply (Hk r)].
Qed.

Lemma zero_variance_short (c : ImpactCol) (view : DataFrame) :
  (List.length view < 2)%nat -> zero_variance c view.
Proof.
  destruct view as [| a [| b view]]; simpl; intros Hlen; [| | lia].
  - intros r1 r2 v1 v2 [].
  - intros r1 r2 v1 v2 [<- | []] [<- | []] H1 H2. congruence.
Qed.

Lemma in_combine_columns (cx cy : ImpactCol) (view : DataFrame) (obs : cell * cell) :
  In obs (combine (column cx view) (column cy view)) ->
  exists r, In r view /\ obs = (get_col cx r, get_col cy r).
Proof.
  unfold column. induction view as [| a view IH]; simpl; [contradiction |].
  intros [<- | H].
  - exists a. auto.
  - destruct (IH H) as [r [Hr ->]]. exists r. auto.
Qed.

Lemma Qc_is_zero_mult_l (q : Qc) : pd.Qc_is_zero (0 * q)%Qc = true.
Proof.
  replace (0 * q)%Qc with 0%Qc by ring. reflexivity.
Qed.

Lemma Qc_is_zero_mult_r (q : Qc) : pd.Qc_is_zero (q * 0)%Qc = true.
Proof.
  replace (q * 0)%Qc with 0%Qc by ring. reflexivity.
Qed.

(** A column without spread on the x side gives NaN ... *)
Lemma pearson_flat_x (c c' : ImpactCol) (view : DataFrame) :
  zero_variance c view ->
  pd.pearson (column c view) (column c' view) = pd.coef_nan.
Proof.
  intros Hz. destruct (zero_variance_value c view Hz) as [k Hk].
  unfold pd.pearson.
  assert (Hflat : flat_x k (fold_left pd.welford_step
                              (combine (column c view) (column c' view)) pd.welford0)).
  { apply welford_fold_flat_x; [apply welford0_flat |].
    intros obs v Hin Hv. apply in_combine_columns in Hin.
    destruct Hin as [r [Hr ->]]. now apply (Hk r). }
  destruct Hflat as (_ & _ & _ & Hs). rewrite Hs, Qc_is_zero_mult_l.
  now destruct (_ <? 1).
Qed.

(** ... and so does one on the y side. *)
Lemma pearson_flat_y (c c' : ImpactCol) (view : DataFrame) :
  zero_variance c view ->
  pd.pearson (column c' view) (column c view) = pd.coef_nan.
Proof.
  intros Hz. destruct (zero_variance_value c view Hz) as [k Hk].
  unfold pd.pearson.
  assert (Hflat : flat_y k (fold_left pd.welford_step
                              (combine (column c' view) (column c view)) pd.welford0)).
  { apply welford_fold_flat_y; [apply welford0_flat |].
    intros obs v Hin Hv. apply in_combine_columns in Hin.
    destruct Hin as [r [Hr ->]]. now apply (Hk r). }
  destruct Hflat as (_ & _ & _ & Hs). rewrite Hs, Qc_is_zero_mult_r.
  now destruct (_ <? 1).
Qed.

Lemma loc_correlation_matrix (view : DataFrame) (cx cy : ImpactCol) :
  loc (correlation_matrix view) cx cy
  = Some (pd.pearson (column cx view) (column cy view)).
Proof.
  destruct cx, cy; reflexivity.
Qed.

(** C4. When the view has fewer than two rows, or a column of it has zero
    variance, every entry of the correlation matrix in the row or in the
    column of that impact measure is NaN, hence no number at all; with
    fewer than two rows the whole matrix is NaN. *)
Theorem correlation_nan_without_spread (view : DataFrame) (c : ImpactCol) :
  (List.length view < 2)%nat \/ zero_variance c view ->
  (forall c',
     loc (correlation_matrix view) c c' = Some pd.coef_nan /\
     loc (correlation_matrix view) c' c = Some pd.coef_nan /\
     (forall q r, loc (correlation_matrix view) c c' <> Some (pd.coef_quot q r)) /\
     (forall q r, loc (correlation_matrix view) c' c <> Some (pd.coef_quot q r)))
  /\ ((List.length view < 2)%nat -> correlation_matrix view = nan_matrix).
Proof.
  intros H.
  assert (Hz : zero_variance c view)
    by (destruct H as [Hlen | Hz]; [now apply zero_variance_short | assumption]).
  split.
  - intros c'. rewrite !loc_correlation_matrix.
    rewrite (pearson_flat_x c c' view Hz), (pearson_flat_y c c' view Hz).
    repeat split; try discriminate.
  - intros Hlen. unfold correlation_matrix, pd.corr, impact_cols, nan_matrix. simpl.
    rewrite !pearson_flat_x by now apply zero_variance_short.
    reflexivity.
Qed.

Lemma correlation_nan_without_spread_witness :
  (List.length one_event < 2)%nat /\
  loc (correlation_matrix one_event) Deaths Deaths = Some pd.coef_nan /\
  correlation_matrix one_event = nan_matrix.
Proof.
  assert (Hlen : (List.length one_event < 2)%nat) by (simpl; lia).
  destruct (correlation_nan_without_spread one_event Deaths (or_introl Hlen))
    as [Hcells Hall].
  split; [exact Hlen |].
  split; [exact (proj1 (Hcells Deaths)) | exact (Hall Hlen)].
Defined.

(** ** The heap *)

Lemma nth_error_snoc_old {A : Type} (h : list A) (x : A) (r : nat) (d : A) :
  nth_error h r = Some d -> nth_error (h ++ [x]) r = Some d.
Proof.
  intros H. rewrite nth_error_app1; [assumption |].
  apply nth_error_Some. congruence.
Qed.

Lemma nth_error_snoc_new {A : Type} (h : list A) (x : A) :
  nth_error (h ++ [x]) (List.length h) = Some x.
Proof.
  rewrite nth_error_app2 by lia. now rewrite Nat.sub_diag.
Qed.

Lemma nth_error_fresh {A : Type} (h : list A) : nth_error h (List.length h) = None.
Proof. apply nth_error_None. lia. Qed.

Lemma update_nth_same {A : Type} (n : nat) (x y : A) (l : list A) :
  nth_error l n = Some y -> nth_error (update_nth n x l) n = Some x.
Proof.
  revert l. induction n as [| n IH]; intros [| a l]; simpl; try discriminate; auto.
Qed.

Lemma update_nth_other {A : Type} (n m : nat) (x : A) (l : list A) :
  n <> m -> nth_error (update_nth n x l) m = nth_error l m.
Proof.
  revert m l. induction n as [| n IH]; intros [| m] [| a l] Hne; simpl;
    try reflexivity; try contradiction.
  apply IH. congruence.
Qed.

Lemma update_nth_last {A : Type} (x y : A) (l : list A) :
  update_nth (List.length l) x (l ++ [y]) = (l ++ [x])%list.
Proof.
  induction l as [| a l IH]; simpl; [reflexivity | now rewrite IH].
Qed.

Section Running.
Variables (h : list DataFrame) (scr : list Element) (out : list string).

Lemma run_deref (r : ref) (d : DataFrame) :
  nth_error h r = Some d ->
  deref r (mkWorld h scr out) = (Ok d, mkWorld h scr out).
Proof. unfold deref. simpl. now intros ->. Qed.

Lemma run_setitem (r : ref) (d : DataFrame) (c : ImpactCol) (s : list cell) :
  nth_error h r = Some d ->
  setitem r c s (mkWorld h scr out)
  = (Ok tt, mkWorld (update_nth r (assign_column c s d) h) scr out).
Proof. unfold setitem. simpl. now intros ->. Qed.

Lemma run_getitem (r : ref) (d : DataFrame) (m : Row -> bool) :
  nth_error h r = Some d ->
  getitem r m (mkWorld h scr out)
  = (Ok (List.length h), mkWorld (h ++ [pd.getitem_mask m d]) scr out).
Proof.
  intros H. unfold getitem, bind. now rewrite (run_deref _ _ H).
Qed.

Lemma run_copy (r : ref) (d : DataFrame) :
  nth_error h r = Some d ->
  copy r (mkWorld h scr out) = (Ok (List.length h), mkWorld (h ++ [d]) scr out).
Proof.
  intros H. unfold copy, bind. now rewrite (run_deref _ _ H).
Qed.

Lemma run_show (e : Element) :
  show e (mkWorld h scr out) = (Ok tt, mkWorld h (scr ++ [e]) out).
Proof. reflexivity. Qed.

(** Column assignment, by contrast, changes the object it is applied to,
    and only that one. *)
Lemma setitem_in_place (r : ref) (d : DataFrame) (c : ImpactCol) (s : list cell) :
  nth_error h r = Some d ->
  exists w',
    setitem r c s (mkWorld h scr out) = (Ok tt, w') /\
    nth_error (heap w') r = Some (assign_column c s d) /\
    forall r', r <> r' -> nth_error (heap w') r' = nth_error h r'.
Proof.
  intros H. rewrite (run_setitem _ _ _ _ H). eexists. split; [reflexivity |].
  simpl. split.
  - now apply update_nth_same with (y := d).
  - intros r' Hne. now apply update_nth_other.
Qed.

End Running.

(** C9. Applying the filters to the climate subset returns a reference
    that did not exist before, behind which the filtered rows are found;
    every object that existed before, the climate subset among them, has
    the rows it had, and nothing is shown or printed. *)
Theorem apply_filters_pure (w : World) (df_climate : ref) (cs : DataFrame)
    (selected_years : Z * Z) (selected_disasters : list string) :
  nth_error (heap w) df_climate = Some cs ->
  exists (filtered : ref) (w' : World),
    apply_filters df_climate selected_years selected_disasters w = (Ok filtered, w') /\
    nth_error (heap w) filtered = None /\
    filtered <> df_climate /\
    nth_error (heap w') filtered
      = Some (filtered_df cs selected_years selected_disasters) /\
    (forall r d, nth_error (heap w) r = Some d -> nth_error (heap w') r = Some d) /\
    nth_error (heap w') df_climate = Some cs /\
    screen w' = screen w /\ stdout w' = stdout w.
Proof.
  destruct w as [h scr out]. simpl. intros Hcs.
  unfold apply_filters. rewrite (run_getitem _ _ _ _ _ _ Hcs).
  eexists. eexists. split; [reflexivity |]. simpl.
  split; [apply nth_error_fresh |].
  split.
  { intros E. rewrite <- E, nth_error_fresh in Hcs. discriminate. }
  split; [apply nth_error_snoc_new |].
  split; [intros r d; apply nth_error_snoc_old |].
  split; [now apply nth_error_snoc_old | split; reflexivity].
Qed.

Lemma apply_filters_pure_witness :
  nth_error (heap sample_world) 0 = Some two_events /\
  exists (filtered : ref) (w' : World),
    apply_filters 0%nat (2000, 2001) ["Storm"] sample_world = (Ok filtered, w') /\
    nth_error (heap sample_world) filtered = None /\
    filtered <> 0%nat /\
    nth_error (heap w') filtered = Some (filtered_df two_events (2000, 2001) ["Storm"]) /\
    (forall r d, nth_error (heap sample_world) r = Some d ->
                 nth_error (heap w') r = Some d) /\
    nth_error (heap w') 0 = Some two_events /\
    screen w' = screen sample_world /\ stdout w' = stdout sample_world.
Proof.
  split; [reflexivity |].
  apply (apply_filters_pure sample_world 0%nat two_events (2000, 2001) ["Storm"]).
  reflexivity.
Defined.

(** ** An empty selection *)

Lemma filtered_df_no_types (df_climate : DataFrame) (selected_years : Z * Z) :
  filtered_df df_climate selected_years [] = [].
Proof.
  unfold filtered_df, pd.getitem_mask.
  induction df_climate as [| r df IH]; simpl; [reflexivity |].
  unfold mask at 1. simpl. now rewrite andb_false_r.
Qed.

Lemma run_render_empty (h : list DataFrame) (scr : list Element)
    (out : list string) (filtered : ref) :
  nth_error h filtered = Some [] ->
  render filtered (mkWorld h scr out)
  = (Raise index_error, mkWorld h (scr ++ page_until_bar) out).
Proof.
  intros H. unfold render, bind. rewrite (run_deref _ _ _ _ _ H).
  rewrite !run_show. rewrite <- !app_assoc. reflexivity.
Qed.

Lemma run_pass_no_types (h : list DataFrame) (scr : list Element)
    (out : list string) (df_climate : ref) (cs : DataFrame) (selected_years : Z * Z) :
  nth_error h df_climate = Some cs ->
  pass df_climate selected_years [] (mkWorld h scr out)
  = (Raise index_error, mkWorld (h ++ [[]]) (scr ++ page_until_bar) out).
Proof.
  intros Hcs. unfold pass, bind, apply_filters.
  rewrite (run_getitem _ _ _ _ _ _ Hcs).
  fold (filtered_df cs selected_years []). rewrite filtered_df_no_types.
  rewrite run_render_empty; [reflexivity | apply nth_error_snoc_new].
Qed.

(** C3. With no disaster type selected the filtered view has no rows,
    whatever the climate subset and the year range; its event count is 0,
    its three sums are 0 and its yearly trend is empty.  The pass does not
    end normally, though: after the metrics and the trend chart, the bar
    plot of the empty type distribution (line 101) raises IndexError, and
    neither the heatmap nor the table is reached. *)
Theorem empty_selection_raises (cs : DataFrame) (selected_years : Z * Z) :
  filtered_df cs selected_years [] = [] /\
  total_events (filtered_df cs selected_years []) = 0%nat /\
  total_deaths (filtered_df cs selected_years []) = num 0 /\
  total_affected (filtered_df cs selected_years []) = num 0 /\
  total_damages (filtered_df cs selected_years []) = num 0 /\
  yearly_trends (filtered_df cs selected_years []) = [] /\
  pass 0%nat selected_years [] (mkWorld [cs] [] [])
  = (Raise index_error, mkWorld [cs; []] page_until_bar []).
Proof.
  rewrite filtered_df_no_types. repeat split.
  now rewrite (run_pass_no_types [cs] [] [] 0%nat cs).
Qed.

(** ** Loading *)

Lemma run_read (disk : Disk) (file_path : string) (w : World) :
  try_except
    (d <- call (read_csv disk file_path) ;;
     df <- new_df d ;;
     print "Dataset loaded successfully" ;;
     ret (Some df))%prog
    (fun e => show (error ("Error loading dataset: " ++ exn_str e)) ;; ret None)%prog
    w
  = read_result disk file_path w.
Proof.
  unfold read_result, try_except, bind, call. now destruct (read_csv disk file_path).
Qed.

Lemma load_data_primary (disk : Disk) (w : World) :
  path_exists disk primary_path = true ->
  load_data disk w = read_result disk primary_path w.
Proof.
  intros H. rewrite <- run_read. unfold load_data. fold primary_path.
  rewrite H. reflexivity.
Qed.

Lemma load_data_fallback (disk : Disk) (w : World) :
  path_exists disk primary_path = false ->
  path_exists disk fallback_path = true ->
  load_data disk w = read_result disk fallback_path w.
Proof.
  intros H1 H2. rewrite <- run_read. unfold load_data. fold primary_path fallback_path.
  rewrite H1, H2. reflexivity.
Qed.

Lemma load_data_neither (disk : Disk) (w : World) :
  path_exists disk primary_path = false ->
  path_exists disk fallback_path = false ->
  load_data disk w = gave_up not_found_message w.
Proof.
  intros H1 H2. unfold load_data. fold primary_path fallback_path.
  rewrite H1, H2. reflexivity.
Qed.

(** C5. [load_data] reads natural_disasters.csv when it exists; when it
    does not, it reads data2.csv from the same directory, and returns its
    contents if the file parses; when neither file exists it reports that no
    file was found and returns nothing, and the script then ends with the
    page holding only the title, the description and that message: no row
    is filtered, no metric or chart is produced. *)
Theorem load_data_tries_primary_then_fallback (disk : Disk) (ui : UI) (w : World) :
  match path_exists disk primary_path, path_exists disk fallback_path with
  | true, _ => load_data disk w = read_result disk primary_path w
  | false, true =>
      load_data disk w = read_result disk fallback_path w /\
      forall d, read_csv disk fallback_path = Ok d -> load_data disk w = loaded d w
  | false, false =>
      load_data disk w = gave_up not_found_message w /\
      main disk ui world0
      = (Ok tt, mkWorld [] (page_top ++ [error not_found_message]) [])
  end.
Proof.
  destruct (path_exists disk primary_path) eqn:H1;
    [now apply load_data_primary |].
  destruct (path_exists disk fallback_path) eqn:H2.
  - split; [now apply load_data_fallback |].
    intros d Hd. rewrite load_data_fallback by assumption.
    unfold read_result. now rewrite Hd.
  - split; [now apply load_data_neither |].
    unfold main, bind, world0. rewrite !run_show. simpl.
    rewrite load_data_neither by assumption. reflexivity.
Qed.

Lemma load_data_tries_primary_then_fallback_witness :
  load_data disk_with_fallback world0
  = (Ok (Some 0%nat), mkWorld [two_events] [] ["Dataset loaded successfully"]) /\
  load_data empty_disk world0
  = (Ok None, mkWorld [] [error not_found_message] []) /\
  main empty_disk untouched world0
  = (Ok tt, mkWorld [] (page_top ++ [error not_found_message]) []).
Proof.
  pose proof (load_data_tries_primary_then_fallback
                disk_with_fallback untouched world0) as Hfb.
  pose proof (load_data_tries_primary_then_fallback
                empty_disk untouched world0) as Hno.
  split; [exact (proj2 Hfb two_events eq_refl) |].
  split; [exact (proj1 Hno) | exact (proj2 Hno)].
Defined.

(** ** The script and the functions on values *)

(** Lines 40-47 leave the loaded frame alone: they add the allow-listed
    selection and its cleaned copy, which holds [preprocess d]. *)
Lemma run_load_and_filter (w : World) (df : ref) (d : DataFrame) :
  nth_error (heap w) df = Some d ->
  load_and_filter df w
  = (Ok (S (List.length (heap w))),
     mkWorld (heap w ++ [restrict d; preprocess d]) (screen w) (stdout w)).
Proof.
  destruct w as [h scr out]. simpl. intros Hd.
  unfold load_and_filter, bind.
  rewrite (run_getitem _ _ _ _ _ _ Hd). fold (restrict d).
  rewrite (run_copy _ _ _ _ (restrict d)) by apply nth_error_snoc_new.
  set (h1 := (h ++ [restrict d])%list).
  assert (Hget : forall x, nth_error (h1 ++ [x]) (List.length h1) = Some x)
    by (intros; apply nth_error_snoc_new).
  do 3 (rewrite (run_deref _ _ _ _ _ (Hget _));
        rewrite (run_setitem _ _ _ _ _ _ _ (Hget _));
        rewrite update_nth_last).
  unfold ret. subst h1. rewrite <- app_assoc. simpl.
  rewrite length_app, Nat.add_comm. reflexivity.
Qed.

(** Lines 50-62 on a climate subset that spans more than one year, the
    widgets left alone. *)
Lemma run_sidebar_untouched (w : World) (df_climate : ref) (cs : DataFrame)
    (selected_years : Z * Z) :
  nth_error (heap w) df_climate = Some cs ->
  default_years cs = Some selected_years ->
  fst selected_years < snd selected_years ->
  exists w',
    sidebar untouched df_climate w
    = (Ok (selected_years, disaster_options cs), w') /\
    heap w' = heap w.
Proof.
  intros Hcs Hdef Hlt. unfold default_years in Hdef.
  destruct (py.min (years cs)) as [lo |] eqn:Hlo; [| discriminate].
  destruct (py.max (years cs)) as [hi |] eqn:Hhi; [| discriminate].
  injection Hdef as <-.
  destruct w as [h scr out]. simpl in *.
  assert (E : (lo =? hi) = false) by (apply Z.eqb_neq; lia).
  unfold sidebar, bind. rewrite run_show.
  rewrite (run_deref _ _ _ _ cs) by assumption.
  rewrite Hlo, Hhi. unfold slider. simpl. rewrite E. simpl.
  eexists. split; reflexivity.
Qed.

(** Without any row of an allow-listed type, [min(years)] raises and the
    script stops before the filter. *)
Lemma run_sidebar_no_rows (ui : UI) (w : World) (df_climate : ref) :
  nth_error (heap w) df_climate = Some [] ->
  sidebar ui df_climate w
  = (Raise (empty_sequence "min"),
     mkWorld (heap w) (screen w ++ [sidebar_header "Filter Options"]) (stdout w)).
Proof.
  destruct w as [h scr out]. simpl. intros H.
  unfold sidebar, bind. rewrite run_show.
  rewrite (run_deref _ _ _ _ []) by assumption. reflexivity.
Qed.

(** The whole script on a directory that holds only data2.csv, widgets
    left alone: it ends normally, the loaded frame is untouched, and the
    filtered view (the fourth object) is the cleaned climate subset. *)
Example main_with_fallback :
  exists w',
    main disk_with_fallback untouched world0 = (Ok tt, w') /\
    nth_error (heap w') 0 = Some two_events /\
    nth_error (heap w') 2 = Some (preprocess two_events) /\
    nth_error (heap w') 3 = Some (preprocess two_events) /\
    stdout w' = ["Dataset loaded successfully"].
Proof.
  eexists. split; [vm_compute; reflexivity |]. repeat split.
Qed.

(** * Further properties of the script *)

(** ** Loading: nothing escapes, nothing else is touched *)

Lemma read_result_cases (disk : Disk) (file_path : string) (w : World) :
  (exists d, read_csv disk file_path = Ok d /\ read_result disk file_path w = loaded d w) \/
  (exists e, read_csv disk file_path = Raise e /\
             read_result disk file_path w
             = gave_up ("Error loading dataset: " ++ exn_str e) w).
Proof.
  unfold read_result. destruct (read_csv disk file_path) as [d | e]; eauto.
Qed.

Lemma load_data_cases (disk : Disk) (w : World) :
  (exists d, load_data disk w = loaded d w) \/
  (exists message, load_data disk w = gave_up message w).
Proof.
  destruct (path_exists disk primary_path) eqn:H1.
  - rewrite load_data_primary by assumption.
    destruct (read_result_cases disk primary_path w) as [[d [_ ->]] | [e [_ ->]]]; eauto.
  - destruct (path_exists disk fallback_path) eqn:H2.
    + rewrite load_data_fallback by assumption.
      destruct (read_result_cases disk fallback_path w) as [[d [_ ->]] | [e [_ ->]]]; eauto.
    + rewrite load_data_neither by assumption. eauto.
Qed.

(** X1. [load_data] never lets an exception escape, whatever the disk holds.
    It either returns a reference that did not exist before and shows
    nothing, or returns None after exactly one error message and without
    creating any object; the objects that existed keep their rows. *)
Theorem load_data_never_raises (disk : Disk) (w : World) :
  exists (r : option ref) (w' : World),
    load_data disk w = (Ok r, w') /\
    (forall i d, nth_error (heap w) i = Some d -> nth_error (heap w') i = Some d) /\
    match r with
    | Some df =>
        nth_error (heap w) df = None /\
        (exists d, nth_error (heap w') df = Some d) /\
        screen w' = screen w
    | None =>
        heap w' = heap w /\ stdout w' = stdout w /\
        exists message, screen w' = (screen w ++ [error message])%list
    end.
Proof.
  destruct (load_data_cases disk w) as [[d ->] | [message ->]];
    unfold loaded, gave_up; eexists; eexists; (split; [reflexivity |]); simpl.
  - split; [intros i d0; apply nth_error_snoc_old |].
    split; [apply nth_error_fresh |].
    split; [exists d; apply nth_error_snoc_new | reflexivity].
  - split; [auto |]. repeat split. now exists message.
Qed.

(** X2. When natural_disasters.csv exists but cannot be read, the error of
    the read is reported and nothing is loaded: data2.csv is not tried,
    whether it exists or not. *)
Theorem load_data_unreadable_primary (disk : Disk) (w : World) (e : Exn) :
  path_exists disk primary_path = true ->
  read_csv disk primary_path = Raise e ->
  load_data disk w = gave_up ("Error loading dataset: " ++ exn_str e) w /\
  forall ui, main disk ui world0
             = (Ok tt, mkWorld [] (page_top ++ [error ("Error loading dataset: " ++ exn_str e)]) []).
Proof.
  intros Hex Hread.
  assert (Hload : forall w0, load_data disk w0
                             = gave_up ("Error loading dataset: " ++ exn_str e) w0).
  { intros w0. rewrite load_data_primary by assumption.
    unfold read_result. now rewrite Hread. }
  split; [apply Hload |].
  intros ui. unfold main, bind, world0. rewrite !run_show. simpl.
  rewrite Hload. reflexivity.
Qed.

Lemma load_data_unreadable_primary_witness :
  path_exists disk_with_broken_primary fallback_path = true /\
  read_csv disk_with_broken_primary fallback_path = Ok two_events /\
  load_data disk_with_broken_primary world0
  = gave_up "Error loading dataset: invalid data" world0.
Proof.
  split; [reflexivity |]. split; [reflexivity |].
  exact (proj1 (load_data_unreadable_primary disk_with_broken_primary world0
                  (Exception "UnicodeDecodeError" "invalid data") eq_refl eq_refl)).
Defined.

(** ** The script from the loaded frame to the page *)

(** X3. Lines 40-47 work on a copy: afterwards the loaded frame, like every
    object that existed, has the rows it had; the reference returned is new
    and holds the cleaned, allow-listed rows; nothing is shown or printed. *)
Theorem load_and_filter_works_on_copy (w : World) (df : ref) (d : DataFrame) :
  nth_error (heap w) df = Some d ->
  exists (df_climate : ref) (w' : World),
    load_and_filter df w = (Ok df_climate, w') /\
    nth_error (heap w) df_climate = None /\
    nth_error (heap w') df_climate = Some (preprocess d) /\
    nth_error (heap w') df = Some d /\
    (forall i x, nth_error (heap w) i = Some x -> nth_error (heap w') i = Some x) /\
    screen w' = screen w /\ stdout w' = stdout w.
Proof.
  intros Hd. rewrite (run_load_and_filter _ _ _ Hd).
  eexists. eexists. split; [reflexivity |]. cbn [heap screen stdout].
  assert (Hold : forall i x, nth_error (heap w) i = Some x ->
                 nth_error (heap w ++ [restrict d; preprocess d]) i = Some x).
  { intros i x Hi. rewrite nth_error_app1; [assumption |].
    apply nth_error_Some. congruence. }
  split; [apply nth_error_None; lia |].
  split.
  { rewrite nth_error_app2 by lia.
    replace (S (List.length (heap w)) - List.length (heap w))%nat with 1%nat by lia.
    reflexivity. }
  split; [now apply Hold |].
  split; [exact Hold | split; reflexivity].
Qed.

Lemma load_and_filter_works_on_copy_witness :
  exists (df_climate : ref) (w' : World),
    load_and_filter 0%nat (mkWorld [gappy_events] [] []) = (Ok df_climate, w') /\
    nth_error [gappy_events] df_climate = None /\
    nth_error (heap w') df_climate = Some (preprocess gappy_events) /\
    nth_error (heap w') 0 = Some gappy_events.
Proof.
  destruct (load_and_filter_works_on_copy (mkWorld [gappy_events] [] []) 0%nat
              gappy_events eq_refl)
    as (r & w' & H1 & H2 & H3 & H4 & _).
  exists r, w'. repeat split; assumption.
Defined.

Lemma sorted_not_nil {A : Type} (leb : A -> A -> bool) (l : list A) :
  l <> [] -> py.sorted leb l <> [].
Proof.
  intros Hne H. apply Hne.
  apply Permutation_nil. rewrite <- H. apply sorted_perm.
Qed.

(** A view with a row has a bar to plot. *)
Lemma disaster_counts_not_nil (view : DataFrame) :
  view <> [] -> disaster_counts view <> [].
Proof.
  intros Hne. unfold disaster_counts, pd.value_counts.
  apply sorted_not_nil. destruct view as [| r view]; [contradiction |].
  simpl. discriminate.
Qed.

Lemma run_plot_bar (h : list DataFrame) (scr : list Element) (out : list string)
    (counts : list (string * nat)) :
  counts <> [] ->
  plot_bar counts (mkWorld h scr out) = (Ok tt, mkWorld h (scr ++ [bar_plot counts]) out).
Proof.
  destruct counts; [contradiction | reflexivity].
Qed.

Lemma run_render (h : list DataFrame) (scr : list Element) (out : list string)
    (filtered : ref) (view : DataFrame) :
  nth_error h filtered = Some view ->
  view <> [] ->
  render filtered (mkWorld h scr out)
  = (Ok tt, mkWorld h (scr ++ view_page view) out).
Proof.
  intros H Hne. unfold render, bind. rewrite (run_deref _ _ _ _ _ H).
  rewrite !run_show.
  rewrite run_plot_bar by now apply disaster_counts_not_nil.
  rewrite !run_show. rewrite <- !app_assoc. reflexivity.
Qed.

Lemma run_sidebar (ui : UI) (h : list DataFrame) (scr : list Element)
    (out : list string) (df_climate : ref) (cs : DataFrame) (dy : Z * Z) :
  nth_error h df_climate = Some cs ->
  default_years cs = Some dy ->
  fst dy < snd dy ->
  sidebar ui df_climate (mkWorld h scr out)
  = (Ok (chosen_years ui dy, chosen_types ui (disaster_options cs)),
     mkWorld h (scr ++ sidebar_page cs dy) out).
Proof.
  intros Hcs Hdef Hlt. unfold default_years in Hdef.
  destruct (py.min (years cs)) as [lo |] eqn:Hlo; [| discriminate].
  destruct (py.max (years cs)) as [hi |] eqn:Hhi; [| discriminate].
  injection Hdef as <-. simpl in Hlt.
  assert (E : (lo =? hi) = false) by (apply Z.eqb_neq; lia).
  unfold sidebar, bind. rewrite run_show.
  rewrite (run_deref _ _ _ _ cs) by assumption.
  rewrite Hlo, Hhi. unfold slider. simpl. rewrite E. simpl.
  rewrite <- !app_assoc. reflexivity.
Qed.

(** A climate subset whose rows all have the same year: the slider raises
    before any widget is shown. *)
Lemma run_sidebar_one_year (ui : UI) (h : list DataFrame) (scr : list Element)
    (out : list string) (df_climate : ref) (cs : DataFrame) (y : Z) :
  nth_error h df_climate = Some cs ->
  default_years cs = Some (y, y) ->
  sidebar ui df_climate (mkWorld h scr out)
  = (Raise slider_error, mkWorld h (scr ++ [sidebar_header "Filter Options"]) out).
Proof.
  intros Hcs Hdef. unfold default_years in Hdef.
  destruct (py.min (years cs)) as [lo |] eqn:Hlo; [| discriminate].
  destruct (py.max (years cs)) as [hi |] eqn:Hhi; [| discriminate].
  injection Hdef as -> ->.
  unfold sidebar, bind. rewrite run_show.
  rewrite (run_deref _ _ _ _ cs) by assumption.
  rewrite Hlo, Hhi. unfold slider. simpl. now rewrite Z.eqb_refl.
Qed.

Lemma run_main_loaded (disk : Disk) (ui : UI) (d : DataFrame) :
  load_data disk (mkWorld [] page_top []) = loaded d (mkWorld [] page_top []) ->
  main disk ui world0
  = (df_climate <- load_and_filter 0%nat ;;
     selection <- sidebar ui df_climate ;;
     pass df_climate (fst selection) (snd selection))%prog
      (mkWorld [d] page_top ["Dataset loaded successfully"]).
Proof.
  intros Hload. unfold main, world0.
  unfold bind at 1. rewrite run_show.
  unfold bind at 1. rewrite run_show.
  unfold bind at 1. rewrite run_show.
  unfold bind at 1. simpl app. fold page_top. rewrite Hload. reflexivity.
Qed.

Lemma load_data_any_world (disk : Disk) (d : DataFrame) (w w0 : World) :
  load_data disk w = loaded d w -> load_data disk w0 = loaded d w0.
Proof.
  intros H.
  destruct (path_exists disk primary_path) eqn:H1.
  - rewrite load_data_primary in * by assumption.
    unfold read_result in *. destruct (read_csv disk primary_path).
    + unfold loaded in H. injection H as H. apply app_inv_head in H.
      now injection H as ->.
    + discriminate.
  - destruct (path_exists disk fallback_path) eqn:H2.
    + rewrite load_data_fallback in * by assumption.
      unfold read_result in *. destruct (read_csv disk fallback_path).
      * unfold loaded in H. injection H as H. apply app_inv_head in H.
        now injection H as ->.
      * discriminate.
    + rewrite load_data_neither in H by assumption. discriminate.
Qed.

Lemma load_data_gave_up_any_world (disk : Disk) (message : string) (w w0 : World) :
  load_data disk w = gave_up message w -> load_data disk w0 = gave_up message w0.
Proof.
  intros H. unfold gave_up in H.
  destruct (path_exists disk primary_path) eqn:H1.
  - rewrite load_data_primary in * by assumption.
    unfold read_result in *. destruct (read_csv disk primary_path);
      [discriminate |].
    unfold gave_up in *. injection H as H. apply app_inv_head in H.
    injection H as <-. reflexivity.
  - destruct (path_exists disk fallback_path) eqn:H2.
    + rewrite load_data_fallback in * by assumption.
      unfold read_result in *. destruct (read_csv disk fallback_path);
        [discriminate |].
      unfold gave_up in *. injection H as H. apply app_inv_head in H.
      injection H as <-. reflexivity.
    + rewrite load_data_neither in * by assumption.
      unfold gave_up in *. injection H as H. apply app_inv_head in H.
      injection H as <-. reflexivity.
Qed.

Lemma preprocess_nil_iff (d : DataFrame) : preprocess d = [] <-> restrict d = [].
Proof.
  unfold preprocess. rewrite handle_missing_rows.
  destruct (restrict d); simpl; split; intros H; try reflexivity; discriminate.
Qed.

Lemma run_main_cleaned (disk : Disk) (ui : UI) (d : DataFrame) :
  load_data disk world0 = loaded d world0 ->
  main disk ui world0
  = (selection <- sidebar ui 2%nat ;;
     pass 2%nat (fst selection) (snd selection))%prog
      (mkWorld [d; restrict d; preprocess d] page_top ["Dataset loaded successfully"]).
Proof.
  intros Hload.
  rewrite (run_main_loaded disk ui d) by (now apply (load_data_any_world _ _ world0)).
  unfold bind at 1.
  rewrite (run_load_and_filter _ 0%nat d) by reflexivity.
  reflexivity.
Qed.

Lemma run_main_view (disk : Disk) (ui : UI) (d : DataFrame) (dy : Z * Z) :
  load_data disk world0 = loaded d world0 ->
  default_years (preprocess d) = Some dy ->
  fst dy < snd dy ->
  filtered_df (preprocess d) (chosen_years ui dy)
    (chosen_types ui (disaster_options (preprocess d))) <> [] ->
  main disk ui world0
  = (Ok tt,
     mkWorld [d; restrict d; preprocess d;
              filtered_df (preprocess d) (chosen_years ui dy)
                (chosen_types ui (disaster_options (preprocess d)))]
       (page_top ++ sidebar_page (preprocess d) dy
        ++ view_page (filtered_df (preprocess d) (chosen_years ui dy)
                        (chosen_types ui (disaster_options (preprocess d)))))
       ["Dataset loaded successfully"]).
Proof.
  intros Hload Hdef Hlt Hview.
  rewrite (run_main_cleaned disk ui d Hload).
  unfold bind at 1.
  rewrite (run_sidebar ui _ _ _ 2%nat (preprocess d) dy) by (reflexivity || assumption).
  cbn [fst snd]. unfold pass, bind, apply_filters.
  rewrite (run_getitem _ _ _ 2%nat (preprocess d)) by reflexivity.
  fold (filtered_df (preprocess d) (chosen_years ui dy)
          (chosen_types ui (disaster_options (preprocess d)))).
  rewrite (run_render _ _ _ 3%nat
             (filtered_df (preprocess d) (chosen_years ui dy)
                (chosen_types ui (disaster_options (preprocess d)))))
    by (reflexivity || assumption).
  rewrite <- !app_assoc. reflexivity.
Qed.

Lemma run_main_empty_view (disk : Disk) (ui : UI) (d : DataFrame) (dy : Z * Z) :
  load_data disk world0 = loaded d world0 ->
  default_years (preprocess d) = Some dy ->
  fst dy < snd dy ->
  filtered_df (preprocess d) (chosen_years ui dy)
    (chosen_types ui (disaster_options (preprocess d))) = [] ->
  main disk ui world0
  = (Raise index_error,
     mkWorld [d; restrict d; preprocess d; []]
       (page_top ++ sidebar_page (preprocess d) dy ++ page_until_bar)
       ["Dataset loaded successfully"]).
Proof.
  intros Hload Hdef Hlt Hview.
  rewrite (run_main_cleaned disk ui d Hload).
  unfold bind at 1.
  rewrite (run_sidebar ui _ _ _ 2%nat (preprocess d) dy) by (reflexivity || assumption).
  cbn [fst snd]. unfold pass, bind, apply_filters.
  rewrite (run_getitem _ _ _ 2%nat (preprocess d)) by reflexivity.
  fold (filtered_df (preprocess d) (chosen_years ui dy)
          (chosen_types ui (disaster_options (preprocess d)))).
  rewrite Hview.
  rewrite (run_render_empty _ _ _ 3%nat) by reflexivity.
  rewrite <- !app_assoc. reflexivity.
Qed.

Lemma run_main_one_year (disk : Disk) (ui : UI) (d : DataFrame) (y : Z) :
  load_data disk world0 = loaded d world0 ->
  default_years (preprocess d) = Some (y, y) ->
  main disk ui world0
  = (Raise slider_error,
     mkWorld [d; restrict d; preprocess d]
       (page_top ++ [sidebar_header "Filter Options"])
       ["Dataset loaded successfully"]).
Proof.
  intros Hload Hdef.
  rewrite (run_main_cleaned disk ui d Hload).
  unfold bind at 1.
  rewrite (run_sidebar_one_year ui _ _ _ 2%nat (preprocess d) y)
    by (reflexivity || assumption).
  reflexivity.
Qed.

Lemma run_main_no_rows (disk : Disk) (ui : UI) (d : DataFrame) :
  load_data disk world0 = loaded d world0 ->
  restrict d = [] ->
  main disk ui world0
  = (Raise (empty_sequence "min"),
     mkWorld [d; []; []] (page_top ++ [sidebar_header "Filter Options"])
       ["Dataset loaded successfully"]).
Proof.
  intros Hload Hnone.
  assert (Hpre : preprocess d = []) by now apply preprocess_nil_iff.
  rewrite (run_main_cleaned disk ui d Hload). rewrite Hnone, Hpre.
  unfold bind at 1.
  rewrite (run_sidebar_no_rows ui _ 2%nat) by reflexivity.
  reflexivity.
Qed.

(** ** Counting by disaster type *)

Section SortedByKey.
Context {A : Type} (leb : A -> A -> bool).
Hypothesis leb_total : forall a b, leb a b = true \/ leb b a = true.
Hypothesis leb_trans : forall a b c, leb a b = true -> leb b c = true -> leb a c = true.

Lemma insert_sorted (x : A) (l : list A) :
  StronglySorted (fun a b => leb a b = true) l ->
  StronglySorted (fun a b => leb a b = true) (py.insert leb x l).
Proof.
  induction l as [| y l IH]; intros Hs; simpl.
  - repeat constructor.
  - inversion Hs as [| ? ? Hs' Hall]; subst.
    destruct (leb x y) eqn:Hxy.
    + constructor; [assumption |].
      constructor; [assumption |].
      rewrite Forall_forall in *. intros z Hz. eauto.
    + constructor; [now apply IH |].
      rewrite Forall_forall in *. intros z Hz.
      apply (Permutation_in _ (insert_perm leb x l)) in Hz.
      destruct Hz as [<- | Hz]; [| now apply Hall].
      destruct (leb_total x y) as [H | H]; [congruence | assumption].
Qed.

Lemma sorted_sorted (l : list A) :
  StronglySorted (fun a b => leb a b = true) (py.sorted leb l).
Proof.
  induction l as [| x l IH]; simpl; [constructor | now apply insert_sorted].
Qed.

End SortedByKey.

Section CountingFacts.
Context {A : Type} (eqb : A -> A -> bool).
Hypothesis eqb_eq : forall a b, eqb a b = true <-> a = b.

Lemma count_eq_step (k x : A) (l : list A) :
  pd.count_eq eqb k (x :: l)
  = ((if eqb k x then 1 else 0) + pd.count_eq eqb k l)%nat.
Proof.
  unfold pd.count_eq. simpl. now destruct (eqb k x).
Qed.

Lemma hits_absent (x : A) (u : list A) :
  ~ In x u -> list_sum (map (fun k => if eqb k x then 1%nat else 0%nat) u) = 0%nat.
Proof.
  induction u as [| a u IH]; intros Hx; simpl; [reflexivity |].
  destruct (eqb a x) eqn:E.
  - exfalso. apply Hx. left. now apply eqb_eq.
  - apply IH. intros H. apply Hx. now right.
Qed.

Lemma hits_present (x : A) (u : list A) :
  NoDup u -> In x u ->
  list_sum (map (fun k => if eqb k x then 1%nat else 0%nat) u) = 1%nat.
Proof.
  induction 1 as [| a u Ha Hnd IH]; intros Hx; simpl; [contradiction |].
  destruct (eqb a x) eqn:E.
  - apply eqb_eq in E. subst a. now rewrite hits_absent.
  - destruct Hx as [-> | Hx]; [| now apply IH].
    assert (eqb x x = true) by now apply eqb_eq. congruence.
Qed.

Lemma counts_total (u l : list A) :
  NoDup u -> (forall x, In x l -> In x u) ->
  list_sum (map (fun k => pd.count_eq eqb k l) u) = List.length l.
Proof.
  intros Hnd. induction l as [| x l IH]; intros Hcov.
  - unfold pd.count_eq. simpl. clear Hnd Hcov. induction u; simpl; auto.
  - rewrite (map_ext _ _ (fun k => count_eq_step k x l)).
    assert (Hx : In x u) by (apply Hcov; now left).
    assert (Hl : forall y, In y l -> In y u) by (intros y Hy; apply Hcov; now right).
    rewrite list_sum_map_add, hits_present, IH by assumption.
    reflexivity.
Qed.

Lemma count_eq_positive (y : A) (l : list A) :
  (0 < pd.count_eq eqb y l)%nat <-> In y l.
Proof.
  unfold pd.count_eq. induction l as [| x l IH]; simpl.
  - split; [lia | contradiction].
  - destruct (eqb y x) eqn:E; simpl.
    + apply eqb_eq in E. subst. split; [now left | lia].
    + rewrite IH. split; [now right |].
      intros [H | H]; [| assumption].
      subst. assert (eqb y y = true) by now apply eqb_eq. congruence.
Qed.

End CountingFacts.

Lemma count_eq_types (t : string) (view : DataFrame) :
  pd.count_eq String.eqb t (map Disaster_Type view)
  = List.length (filter (fun r => String.eqb (Disaster_Type r) t) view).
Proof.
  unfold pd.count_eq. induction view as [| r view IH]; simpl; [reflexivity |].
  rewrite (String.eqb_sym (Disaster_Type r) t).
  destruct (String.eqb t (Disaster_Type r)); simpl; now rewrite IH.
Qed.

Lemma StronglySorted_weaken {A : Type} (R R' : A -> A -> Prop) (l : list A) :
  (forall a b, R a b -> R' a b) -> StronglySorted R l -> StronglySorted R' l.
Proof.
  intros Himp. induction 1 as [| a l Hs IH Hall]; constructor; [assumption |].
  rewrite Forall_forall in *. auto.
Qed.

(** X6. The type distribution lists every disaster type of the view once,
    with the number of rows of that type, in order of decreasing count; the
    counts add up to the number of rows, so the bars account for every
    event of the view. *)
Theorem disaster_counts_tally (view : DataFrame) :
  StronglySorted (fun a b => (snd b <= snd a)%nat) (disaster_counts view) /\
  NoDup (map fst (disaster_counts view)) /\
  (forall t n, In (t, n) (disaster_counts view) <->
     n = List.length (filter (fun r => String.eqb (Disaster_Type r) t) view) /\
     (0 < n)%nat) /\
  list_sum (map snd (disaster_counts view)) = total_events view.
Proof.
  unfold disaster_counts, pd.value_counts, total_events.
  set (types := map Disaster_Type view).
  set (by_count := fun a b : string * nat => Nat.leb (snd b) (snd a)).
  set (tallies := map (fun v => (v, pd.count_eq String.eqb v types))
                    (pd.unique String.eqb types)).
  assert (Hnd : NoDup (pd.unique String.eqb types))
    by (apply unique_NoDup, String.eqb_eq).
  assert (Hperm : Permutation (py.sorted by_count tallies) tallies)
    by apply sorted_perm.
  assert (Hin : forall t n, In (t, n) tallies <->
                  n = pd.count_eq String.eqb t types /\ In t types).
  { intros t n. unfold tallies. rewrite in_map_iff. split.
    - intros [k [[= <- <-] Hk]]. split; [reflexivity |].
      now rewrite (unique_In _ String.eqb_eq) in Hk.
    - intros [-> Ht]. exists t. split; [reflexivity |].
      now rewrite (unique_In _ String.eqb_eq). }
  split; [| split; [| split]].
  - assert (Hs : StronglySorted (fun a b => by_count a b = true)
                   (py.sorted by_count tallies)).
    { apply sorted_sorted; unfold by_count.
      - intros a b. rewrite !Nat.leb_le. lia.
      - intros a b c. rewrite !Nat.leb_le. lia. }
    apply (StronglySorted_weaken _ _ _ (fun a b => proj1 (Nat.leb_le _ _)) Hs).
  - apply (Permutation_NoDup (l := map fst tallies)).
    + apply Permutation_map. now symmetry.
    + unfold tallies. rewrite map_map. simpl. now rewrite map_id.
  - intros t n. rewrite <- count_eq_types. fold types.
    split.
    + intros H. apply (Permutation_in _ Hperm) in H. apply Hin in H.
      destruct H as [-> Ht]. split; [reflexivity |].
      exact (proj2 (count_eq_positive _ String.eqb_eq t types) Ht).
    + intros [-> Hpos]. apply (Permutation_in _ (Permutation_sym Hperm)).
      apply Hin. split; [reflexivity |].
      exact (proj1 (count_eq_positive _ String.eqb_eq t types) Hpos).
  - rewrite (list_sum_perm _ _ (Permutation_map snd Hperm)).
    unfold tallies. rewrite map_map. simpl.
    rewrite (counts_total _ String.eqb_eq); [unfold types; now rewrite length_map | assumption |].
    intros x Hx. now rewrite (unique_In _ String.eqb_eq).
Qed.

(** ** What the fill does to the totals *)

Lemma num_add (x y : Z) : num (x + y) = (num x + num y)%Qc.
Proof.
  apply Qc_is_canon.
  change (Qred (inject_Z (x + y)) == Qred (Qred (inject_Z x) + Qred (inject_Z y))).
  rewrite !Qred_correct. rewrite inject_Z_plus. reflexivity.
Qed.

Lemma num_sub (x y : Z) : num (x - y) = (num x - num y)%Qc.
Proof.
  assert (H : num x = (num (x - y) + num y)%Qc) by (rewrite <- num_add; f_equal; lia).
  rewrite H. ring.
Qed.

Lemma sum_cons_some (v : Qc) (s : list cell) :
  pd.sum (Some v :: s) = (v + pd.sum s)%Qc.
Proof. reflexivity. Qed.

Lemma sum_cons_none (s : list cell) : pd.sum (None :: s) = pd.sum s.
Proof. reflexivity. Qed.

(** Zeros put in place of missing values do not change a sum. *)
Lemma sum_zero_filled (g : Row -> cell) (df : DataFrame) :
  pd.sum (map (fun r => Some (match g r with Some v => v | None => num 0 end)) df)
  = pd.sum (map g df).
Proof.
  induction df as [| r df IH]; simpl map; [reflexivity |].
  rewrite sum_cons_some, IH. destruct (g r) as [v |].
  - now rewrite sum_cons_some.
  - rewrite sum_cons_none. change (num 0) with 0%Qc. ring.
Qed.

(** X7. The zeros that cleaning puts into the death and affected columns
    add nothing: the two totals of the cleaned subset are the sums of the
    figures that the file has for its allow-listed rows, so a gap counts as
    no death and no person affected, never as an estimate. *)
Theorem handle_missing_keeps_count_totals (cs : DataFrame) :
  total_deaths (handle_missing cs) = total_deaths cs /\
  total_affected (handle_missing cs) = total_affected cs.
Proof.
  split.
  - unfold total_deaths, column. rewrite handle_missing_rows, map_map. simpl.
    apply (sum_zero_filled Total_Deaths).
  - unfold total_affected, column. rewrite handle_missing_rows, map_map. simpl.
    apply (sum_zero_filled Total_Affected).
Qed.

(** ** The sidebar: bounds and options *)

Lemma fold_min_In (l : list Z) (x : Z) : In (fold_left Z.min l x) (x :: l).
Proof.
  revert x. induction l as [| a l IH]; intros x; simpl; [now left |].
  destruct (IH (Z.min x a)) as [H | H]; [| now right; right].
  rewrite <- H. destruct (Z.min_spec x a) as [[_ ->] | [_ ->]]; auto.
Qed.

Lemma fold_max_In (l : list Z) (x : Z) : In (fold_left Z.max l x) (x :: l).
Proof.
  revert x. induction l as [| a l IH]; intros x; simpl; [now left |].
  destruct (IH (Z.max x a)) as [H | H]; [| now right; right].
  rewrite <- H. destruct (Z.max_spec x a) as [[_ ->] | [_ ->]]; auto.
Qed.

Lemma py_min_In (l : list Z) (m : Z) : py.min l = Some m -> In m l.
Proof.
  destruct l as [| x l]; simpl; [discriminate |].
  intros [= <-]. apply fold_min_In.
Qed.

Lemma py_max_In (l : list Z) (m : Z) : py.max l = Some m -> In m l.
Proof.
  destruct l as [| x l]; simpl; [discriminate |].
  intros [= <-]. apply fold_max_In.
Qed.

(** X8. The two ends of the year slider are years of actual rows of the
    climate subset, the lower one not above the upper one, and every row
    lies between them. *)
Theorem default_years_are_extreme_years (cs : DataFrame) (lo hi : Z) :
  default_years cs = Some (lo, hi) ->
  lo <= hi /\
  (exists r, In r cs /\ Year r = lo) /\
  (exists r, In r cs /\ Year r = hi) /\
  forall r, In r cs -> lo <= Year r <= hi.
Proof.
  unfold default_years. intros Hdef.
  destruct (py.min (years cs)) as [lo' |] eqn:Hlo; [| discriminate].
  destruct (py.max (years cs)) as [hi' |] eqn:Hhi; [| discriminate].
  injection Hdef as -> ->.
  assert (Hall : forall r, In r cs -> lo <= Year r <= hi).
  { intros r Hr.
    assert (Hy : In (Year r) (years cs)) by (apply years_In; now apply in_map).
    split; [now apply (py_min_le _ _ Hlo) | now apply (py_max_ge _ _ Hhi)]. }
  assert (Hl : exists r, In r cs /\ Year r = lo).
  { apply py_min_In, years_In, in_map_iff in Hlo.
    destruct Hlo as [r [Hy Hr]]. eauto. }
  assert (Hh : exists r, In r cs /\ Year r = hi).
  { apply py_max_In, years_In, in_map_iff in Hhi.
    destruct Hhi as [r [Hy Hr]]. eauto. }
  repeat split; try assumption; try (now apply Hall).
  destruct Hl as [r [Hr <-]]. now apply Hall.
Qed.

Lemma default_years_are_extreme_years_witness :
  1999 <= 2001 /\
  (exists r, In r two_events /\ Year r = 1999) /\
  (exists r, In r two_events /\ Year r = 2001) /\
  forall r, In r two_events -> 1999 <= Year r <= 2001.
Proof.
  apply (default_years_are_extreme_years two_events 1999 2001). reflexivity.
Defined.

Lemma preprocess_types (df : DataFrame) (r : Row) :
  In r (preprocess df) -> In (Disaster_Type r) climate_disasters.
Proof.
  unfold preprocess. rewrite handle_missing_rows, in_map_iff.
  intros [r0 [<- Hr0]]. cbn [Disaster_Type].
  unfold restrict, pd.getitem_mask in Hr0. apply filter_In in Hr0.
  exact (proj1 (isin_spec _ _) (proj2 Hr0)).
Qed.

(** X9. Whatever file was loaded, the type selector offers only
    allow-listed disaster types, each once and so at most four, and only
    types that occur: choosing any offered type alone, with the year range
    left at its default, gives a view with at least one row. *)
Theorem disaster_options_offered (df : DataFrame) :
  (forall t, In t (disaster_options (preprocess df)) -> In t climate_disasters) /\
  NoDup (disaster_options (preprocess df)) /\
  (List.length (disaster_options (preprocess df)) <= 4)%nat /\
  (forall t dy, In t (disaster_options (preprocess df)) ->
                default_years (preprocess df) = Some dy ->
                filtered_df (preprocess df) dy [t] <> []).
Proof.
  assert (Hsub : forall t, In t (disaster_options (preprocess df)) ->
                           In t climate_disasters).
  { intros t Ht. apply disaster_options_In, in_map_iff in Ht.
    destruct Ht as [r [<- Hr]]. now apply preprocess_types in Hr. }
  assert (Hnd : NoDup (disaster_options (preprocess df))).
  { unfold disaster_options.
    apply (Permutation_NoDup (Permutation_sym (sorted_perm _ _))).
    apply unique_NoDup, String.eqb_eq. }
  split; [exact Hsub |]. split; [exact Hnd |]. split.
  - change 4%nat with (List.length climate_disasters).
    apply NoDup_incl_length; assumption.
  - intros t dy Ht Hdef Hempty.
    apply disaster_options_In, in_map_iff in Ht. destruct Ht as [r [Ht Hr]].
    assert (Hin : In r (filtered_df (preprocess df) dy [t])).
    { unfold filtered_df, pd.getitem_mask. apply filter_In. split; [assumption |].
      apply mask_spec. split; [| left; now symmetry].
      unfold default_years in Hdef.
      destruct (py.min (years (preprocess df))) as [lo |] eqn:Hlo; [| discriminate].
      destruct (py.max (years (preprocess df))) as [hi |] eqn:Hhi; [| discriminate].
      injection Hdef as <-. simpl.
      assert (Hy : In (Year r) (years (preprocess df)))
        by (apply years_In; now apply in_map).
      split; [now apply (py_min_le _ _ Hlo) | now apply (py_max_ge _ _ Hhi)]. }
    rewrite Hempty in Hin. contradiction.
Qed.

Lemma disaster_options_offered_witness :
  default_years (preprocess gappy_events) = Some (2001, 2003) /\
  In "Storm" (disaster_options (preprocess gappy_events)) /\
  filtered_df (preprocess gappy_events) (2001, 2003) ["Storm"] <> [].
Proof.
  split; [reflexivity |].
  assert (Hin : In "Storm" (disaster_options (preprocess gappy_events)))
    by (right; left; reflexivity).
  split; [exact Hin |].
  exact (proj2 (proj2 (proj2 (disaster_options_offered gappy_events)))
           "Storm" (2001, 2003) Hin eq_refl).
Defined.

(** ** What every view inherits, and how views nest *)

(** X10. Whatever the user selects, every row shown comes from the cleaned
    climate subset: its type is allow-listed (a selected type outside the
    list matches nothing), its death and affected counts are present, and
    its year lies in the chosen range; the view is never longer than the
    subset. *)
Theorem view_rows_are_clean (df : DataFrame) (selected_years : Z * Z)
    (selected_disasters : list string) :
  let view := filtered_df (preprocess df) selected_years selected_disasters in
  (forall r, In r view ->
     In (Disaster_Type r) climate_disasters /\
     Total_Deaths r <> None /\ Total_Affected r <> None /\
     fst selected_years <= Year r <= snd selected_years) /\
  (total_events view <= total_events (preprocess df))%nat /\
  (forall t, ~ In t climate_disasters ->
             filtered_df (preprocess df) selected_years [t] = []).
Proof.
  intros view. split; [| split].
  - intros r Hr. unfold view, filtered_df, pd.getitem_mask in Hr.
    apply filter_In in Hr. destruct Hr as [Hin Hmask].
    apply mask_spec in Hmask. destruct Hmask as [Hy _].
    split; [now apply (preprocess_types df) |].
    destruct (preprocess_counts_present df r Hin). auto.
  - unfold view, total_events, filtered_df, pd.getitem_mask. apply filter_length_le.
  - intros t Hout.
    destruct (filtered_df (preprocess df) selected_years [t]) as [| r rs] eqn:E;
      [reflexivity |].
    assert (Hr : In r (filtered_df (preprocess df) selected_years [t]))
      by (rewrite E; now left).
    unfold filtered_df, pd.getitem_mask in Hr. apply filter_In in Hr.
    destruct Hr as [Hin Hmask]. apply mask_spec in Hmask.
    destruct Hmask as [_ [Ht | []]]. subst t.
    exfalso. apply Hout. now apply (preprocess_types df).
Qed.

Lemma filter_filter {A : Type} (p q : A -> bool) (l : list A) :
  filter p (filter q l) = filter (fun x => q x && p x) l.
Proof.
  induction l as [| a l IH]; simpl; [reflexivity |].
  destruct (q a); simpl; [destruct (p a) |]; now rewrite IH.
Qed.

(** X11. Views nest: filtering a view again with a year range inside the
    first one and with types taken from the first selection gives the same
    rows as applying the narrower filters to the climate subset directly;
    in particular narrowing the widgets never brings in a row that the
    wider setting did not show. *)
Theorem filtered_df_nests (cs : DataFrame) (wide narrow : Z * Z)
    (more fewer : list string) :
  fst wide <= fst narrow -> snd narrow <= snd wide ->
  (forall t, In t fewer -> In t more) ->
  filtered_df (filtered_df cs wide more) narrow fewer = filtered_df cs narrow fewer /\
  forall r, In r (filtered_df cs narrow fewer) -> In r (filtered_df cs wide more).
Proof.
  intros Hlo Hhi Hsub.
  assert (Himp : forall r, mask narrow fewer r = true -> mask wide more r = true).
  { intros r H. apply mask_spec in H. apply mask_spec.
    destruct H as [[H1 H2] H3]. split; [lia | now apply Hsub]. }
  split.
  - unfold filtered_df, pd.getitem_mask. rewrite filter_filter.
    apply filter_ext. intros r.
    destruct (mask narrow fewer r) eqn:E.
    + now rewrite (Himp r E).
    + apply andb_false_r.
  - intros r Hr. unfold filtered_df, pd.getitem_mask in *.
    apply filter_In in Hr. apply filter_In. destruct Hr as [Hin Hm]. auto.
Qed.

Lemma filtered_df_nests_witness :
  filtered_df (filtered_df gappy_events (2000, 2005) ["Flood"; "Storm"])
    (2002, 2003) ["Flood"]
  = filtered_df gappy_events (2002, 2003) ["Flood"].
Proof.
  apply (filtered_df_nests gappy_events (2000, 2005) (2002, 2003)
           ["Flood"; "Storm"] ["Flood"]).
  - simpl. lia.
  - simpl. lia.
  - intros t [<- | []]. now left.
Defined.

(** X12. The trend chart of a view shows only years inside the chosen
    range, each with a count that is positive and not above the number of
    rows the climate subset has for that year. *)
Theorem yearly_trends_within_range (cs : DataFrame) (selected_years : Z * Z)
    (selected_disasters : list string) (y : Z) (n : nat) :
  In (y, n) (yearly_trends (filtered_df cs selected_years selected_disasters)) ->
  fst selected_years <= y <= snd selected_years /\
  (0 < n <= List.length (filter (fun r => (Year r =? y)%Z) cs))%nat.
Proof.
  unfold yearly_trends, pd.groupby_size.
  set (view := filtered_df cs selected_years selected_disasters).
  rewrite in_map_iff. intros [k [[= <- <-] Hk]].
  rewrite sorted_In, (unique_In _ Z.eqb_eq), in_map_iff in Hk.
  destruct Hk as [r [Hyr Hr]].
  assert (Hpos : (0 < pd.count_eq Z.eqb k (map Year view))%nat).
  { apply count_eq_pos. rewrite <- Hyr. now apply in_map. }
  unfold view, filtered_df, pd.getitem_mask in Hr. apply filter_In in Hr.
  destruct Hr as [Hin Hmask]. apply mask_spec in Hmask. rewrite Hyr in Hmask.
  split; [tauto |]. split; [assumption |].
  rewrite count_eq_rows. unfold view, filtered_df, pd.getitem_mask.
  rewrite filter_filter.
  clear. induction cs as [| a cs IH]; simpl; [lia |].
  destruct (mask selected_years selected_disasters a); simpl;
    destruct (Year a =? k); simpl; lia.
Qed.

Lemma yearly_trends_within_range_witness :
  2002 <= 2003 <= 2003 /\
  (0 < 2 <= List.length (filter (fun r => (Year r =? 2003)%Z) gappy_events))%nat.
Proof.
  apply (yearly_trends_within_range gappy_events (2002, 2003) ["Flood"] 2003 2%nat).
  left. reflexivity.
Defined.

Lemma view_rows_are_clean_witness :
  ~ In "Earthquake" climate_disasters /\
  filtered_df (preprocess gappy_events) (2002, 2003) ["Earthquake"] = [] /\
  (total_events (filtered_df (preprocess gappy_events) (2002, 2003)%Z ["Flood"; "Earthquake"])
   <= total_events (preprocess gappy_events))%nat.
Proof.
  assert (Hout : ~ In "Earthquake" climate_disasters).
  { simpl. intros [H | [H | [H | [H | []]]]]; discriminate. }
  destruct (view_rows_are_clean gappy_events (2002, 2003) ["Flood"; "Earthquake"])
    as (_ & Hlen & Hnone).
  split; [exact Hout |]. split; [exact (Hnone "Earthquake" Hout) | exact Hlen].
Defined.

(** ** The correlation matrix is symmetric *)

Lemma welford_step_mirrored (w1 w2 : pd.welford) (x y : cell) :
  mirrored w1 w2 ->
  mirrored (pd.welford_step w1 (x, y)) (pd.welford_step w2 (y, x)).
Proof.
  intros (Hn & Hmx & Hmy & Hsx & Hsy & Hc).
  destruct x as [vx |], y as [vy |]; simpl;
    try (repeat split; assumption).
  unfold mirrored. simpl. rewrite Hn, Hmx, Hmy, Hsx, Hsy, Hc.
  repeat split; ring.
Qed.

Lemma welford_fold_mirrored (xs ys : list cell) (w1 w2 : pd.welford) :
  mirrored w1 w2 ->
  mirrored (fold_left pd.welford_step (combine xs ys) w1)
           (fold_left pd.welford_step (combine ys xs) w2).
Proof.
  revert ys w1 w2. induction xs as [| x xs IH]; intros [| y ys] w1 w2 Hm;
    simpl; try assumption.
  apply IH. now apply welford_step_mirrored.
Qed.

Lemma pearson_symmetric (xs ys : list cell) : pd.pearson xs ys = pd.pearson ys xs.
Proof.
  unfold pd.pearson.
  assert (Hm : mirrored (fold_left pd.welford_step (combine xs ys) pd.welford0)
                        (fold_left pd.welford_step (combine ys xs) pd.welford0)).
  { apply welford_fold_mirrored. repeat split. }
  destruct Hm as (Hn & _ & _ & Hsx & Hsy & Hc).
  rewrite Hn, Hsx, Hsy, Hc.
  now rewrite (Qcmult_comm (pd.ssqdm_y _) (pd.ssqdm_x _)).
Qed.

(** X13. The correlation matrix is symmetric: the entry for a pair of
    impact measures does not depend on the order of the two, although each
    entry is accumulated row by row with the two columns in different
    roles. *)
Theorem correlation_matrix_symmetric (view : DataFrame) (cx cy : ImpactCol) :
  loc (correlation_matrix view) cx cy = loc (correlation_matrix view) cy cx.
Proof.
  rewrite !loc_correlation_matrix. f_equal. apply pearson_symmetric.
Qed.

(** ** The diagonal of the correlation matrix *)

Lemma num_nonneg (z : Z) : 0 <= z -> (0 <= num z)%Qc.
Proof.
  intros Hz. unfold Qcle, num.
  change (0 <= Qred (inject_Z z))%Q. rewrite Qred_correct.
  unfold Qle. simpl. lia.
Qed.

Lemma Qc_nonneg_mult (x y : Qc) : (0 <= x -> 0 <= y -> 0 <= x * y)%Qc.
Proof.
  intros Hx Hy. rewrite <- (Qcmult_0_l y). now apply Qcmult_le_compat_r.
Qed.

Lemma Qc_nonneg_plus (x y : Qc) : (0 <= x -> 0 <= y -> 0 <= x + y)%Qc.
Proof.
  intros Hx Hy. rewrite <- (Qcplus_0_l 0). now apply Qcplus_le_compat.
Qed.

Lemma Qc_square_nonneg (d : Qc) : (0 <= d * d)%Qc.
Proof.
  destruct (Qclt_le_dec d 0) as [Hneg | Hpos].
  - replace (d * d)%Qc with ((- d) * (- d))%Qc by ring.
    assert (H : (0 <= - d)%Qc).
    { apply Qclt_le_weak in Hneg. apply Qcopp_le_compat in Hneg.
      now replace (- 0)%Qc with 0%Qc in Hneg by ring. }
    now apply Qc_nonneg_mult.
  - now apply Qc_nonneg_mult.
Qed.

Lemma Qc_inv_nonneg (x : Qc) : (0 <= x -> 0 <= / x)%Qc.
Proof.
  unfold Qcle, Qcinv. intros H.
  change (0 <= Qred (/ x))%Q. rewrite Qred_correct.
  now apply Qinv_le_0_compat.
Qed.

(** The amount one row adds to a sum of squared deviations. *)
Lemma welford_term (n : Z) (m v : Qc) :
  1 <= n ->
  ((v - (m + num 1 / num n * (v - m))) * (v - m)
   = (v - m) * (v - m) * (num (n - 1) * / num n))%Qc.
Proof.
  intros Hn. rewrite num_sub. change (num 1) with 1%Qc.
  field. apply num_neq_0. lia.
Qed.

Lemma welford_term_nonneg (n : Z) (m v : Qc) :
  1 <= n -> (0 <= (v - (m + num 1 / num n * (v - m))) * (v - m))%Qc.
Proof.
  intros Hn. rewrite welford_term by assumption.
  apply Qc_nonneg_mult; [apply Qc_square_nonneg |].
  apply Qc_nonneg_mult; [apply num_nonneg; lia |].
  apply Qc_inv_nonneg, num_nonneg. lia.
Qed.

Lemma welford_step_on_diagonal (w : pd.welford) (x : cell) :
  on_diagonal w -> on_diagonal (pd.welford_step w (x, x)).
Proof.
  intros (Hn & Hm & Hs & Hc & Hpos).
  destruct x as [v |]; simpl; [| repeat split; assumption].
  unfold on_diagonal. simpl. rewrite <- Hm, <- Hs, Hc.
  repeat split; try lia.
  apply Qc_nonneg_plus; [assumption |].
  apply welford_term_nonneg. lia.
Qed.

Lemma welford_fold_on_diagonal (xs : list cell) (w : pd.welford) :
  on_diagonal w -> on_diagonal (fold_left pd.welford_step (combine xs xs) w).
Proof.
  revert w. induction xs as [| x xs IH]; intros w Hw; simpl; [assumption |].
  apply IH. now apply welford_step_on_diagonal.
Qed.

Lemma Qc_is_zero_false (q : Qc) : pd.Qc_is_zero q = false -> q <> 0%Qc.
Proof.
  intros H ->. discriminate.
Qed.

(** X14. On the diagonal of the correlation matrix every entry is either
    NaN or of the form q / sqrt (q * q) with q > 0, that is 1: an impact
    measure that varies over the view correlates perfectly with itself. *)
Theorem correlation_matrix_diagonal (view : DataFrame) (c : ImpactCol) :
  loc (correlation_matrix view) c c = Some pd.coef_nan \/
  exists q : Qc, (0 < q)%Qc /\
    loc (correlation_matrix view) c c = Some (pd.coef_quot q (q * q)%Qc).
Proof.
  rewrite loc_correlation_matrix. unfold pd.pearson.
  assert (Hd : on_diagonal (fold_left pd.welford_step
                              (combine (column c view) (column c view)) pd.welford0)).
  { apply welford_fold_on_diagonal. repeat split; try reflexivity; try lia.
    apply Qcle_refl. }
  destruct Hd as (_ & _ & Hs & Hc & Hpos). rewrite <- Hs, Hc.
  destruct (_ <? 1); [now left |].
  destruct (pd.Qc_is_zero _) eqn:Hz; [now left |].
  right. eexists. split; [| reflexivity].
  apply Qc_is_zero_false in Hz.
  destruct (Qcle_lt_or_eq _ _ Hpos) as [Hlt | Heq]; [assumption |].
  exfalso. apply Hz. rewrite <- Heq. ring.
Qed.

(** ** Columns that do not vary where both are present *)

Lemma welford_fold_skip (l : list (cell * cell)) (w : pd.welford) :
  fold_left pd.welford_step l w
  = fold_left pd.welford_step (filter both_present l) w.
Proof.
  revert w. induction l as [| [[vx |] [vy |]] l IH]; intros w; simpl; auto.
Qed.

(** Conversely, an x that does not vary over the rows that count leaves
    the sum of squares at zero. *)
Lemma constant_spread_zero (cx cy : ImpactCol) (view : DataFrame) :
  constant_where_both cx cy view ->
  pd.ssqdm_x (fold_left pd.welford_step
                (combine (column cx view) (column cy view)) pd.welford0) = 0%Qc.
Proof.
  intros Hconst. rewrite welford_fold_skip.
  set (l := filter both_present (combine (column cx view) (column cy view))).
  assert (Hk : exists k, forall obs v, In obs l -> fst obs = Some v -> v = k).
  { destruct l as [| [[kx |] [ky |]] l'] eqn:El.
    - exists 0%Qc. intros obs v [].
    - exists kx. intros obs v Hobs Hv.
      assert (H0 : In (Some kx, Some ky) l) by (rewrite El; now left).
      rewrite <- El in Hobs. unfold l in H0, Hobs.
      apply filter_In in H0, Hobs. destruct H0 as [H0 _], Hobs as [Hobs Hboth].
      apply in_combine_columns in H0, Hobs.
      destruct H0 as [r0 [Hr0 [= E0x E0y]]], Hobs as [r [Hr ->]].
      simpl in Hv, Hboth.
      apply (Hconst r r0 v kx); auto; try congruence.
      rewrite Hv in Hboth. destruct (get_col cy r); discriminate.
    - exfalso. assert (H0 : In (Some kx, None) l) by (rewrite El; now left).
      unfold l in H0. apply filter_In in H0. destruct H0 as [_ H0]. discriminate.
    - exfalso. assert (H0 : In (None, Some ky) l) by (rewrite El; now left).
      unfold l in H0. apply filter_In in H0. destruct H0 as [_ H0]. discriminate.
    - exfalso. assert (H0 : In (@None Qc, @None Qc) l) by (rewrite El; now left).
      unfold l in H0. apply filter_In in H0. destruct H0 as [_ H0]. discriminate. }
  destruct Hk as [k Hk].
  destruct (welford_fold_flat_x k l pd.welford0) as (_ & _ & _ & Hs);
    [apply welford0_flat | exact Hk | exact Hs].
Qed.

(** X15. An entry of the correlation matrix is NaN whenever one of its two
    impact measures takes a single value over the rows of the view in
    which both are present; this includes the case that there is no such
    row.  Rows in which either value is missing play no part. *)
Theorem correlation_nan_when_constant_on_pairs (view : DataFrame) (cx cy : ImpactCol) :
  constant_where_both cx cy view \/ constant_where_both cy cx view ->
  loc (correlation_matrix view) cx cy = Some pd.coef_nan.
Proof.
  rewrite loc_correlation_matrix.
  intros [Hc | Hc]; f_equal.
  - unfold pd.pearson. rewrite (constant_spread_zero cx cy view Hc).
    rewrite Qc_is_zero_mult_l. now destruct (_ <? 1).
  - rewrite pearson_symmetric. unfold pd.pearson.
    rewrite (constant_spread_zero cy cx view Hc).
    rewrite Qc_is_zero_mult_l. now destruct (_ <? 1).
Qed.

(** ** Repeated filtering *)

(** X17. Each application of the filters makes a new object: two
    applications in a row, with whatever settings, return two different
    references, the second leaves the first view as it was, and with the
    same settings both hold the same rows. *)
Theorem apply_filters_twice (w : World) (df_climate : ref) (cs : DataFrame)
    (years1 years2 : Z * Z) (types1 types2 : list string) :
  nth_error (heap w) df_climate = Some cs ->
  exists (v1 v2 : ref) (w1 w2 : World),
    apply_filters df_climate years1 types1 w = (Ok v1, w1) /\
    apply_filters df_climate years2 types2 w1 = (Ok v2, w2) /\
    v1 <> v2 /\
    nth_error (heap w2) v1 = Some (filtered_df cs years1 types1) /\
    nth_error (heap w2) v2 = Some (filtered_df cs years2 types2) /\
    nth_error (heap w2) df_climate = Some cs.
Proof.
  destruct w as [h scr out]. simpl. intros Hcs.
  assert (Hcs1 : nth_error (h ++ [pd.getitem_mask (mask years1 types1) cs]) df_climate
                 = Some cs) by now apply nth_error_snoc_old.
  do 4 eexists. unfold apply_filters.
  split; [apply (run_getitem _ _ _ _ _ _ Hcs) |].
  split; [apply (run_getitem _ _ _ _ _ _ Hcs1) |].
  cbn [heap]. split; [rewrite length_app; simpl; lia |].
  split; [apply nth_error_snoc_old, nth_error_snoc_new |].
  split; [apply nth_error_snoc_new | now apply nth_error_snoc_old].
Qed.

Lemma apply_filters_twice_witness :
  exists (v1 v2 : ref) (w1 w2 : World),
    apply_filters 0%nat (1999, 2001) ["Storm"] sample_world = (Ok v1, w1) /\
    apply_filters 0%nat (1999, 2001) ["Storm"] w1 = (Ok v2, w2) /\
    v1 <> v2 /\
    nth_error (heap w2) v1 = Some (filtered_df two_events (1999, 2001) ["Storm"]) /\
    nth_error (heap w2) v2 = Some (filtered_df two_events (1999, 2001) ["Storm"]) /\
    nth_error (heap w2) 0 = Some two_events.
Proof.
  apply (apply_filters_twice sample_world 0%nat two_events). reflexivity.
Defined.

Lemma load_data_never_raises_witness :
  exists (r : option ref) (w' : World),
    load_data disk_with_broken_primary sample_world = (Ok r, w') /\
    (forall i d, nth_error (heap sample_world) i = Some d ->
                 nth_error (heap w') i = Some d) /\
    match r with
    | Some df =>
        nth_error (heap sample_world) df = None /\
        (exists d, nth_error (heap w') df = Some d) /\
        screen w' = screen sample_world
    | None =>
        heap w' = heap sample_world /\ stdout w' = stdout sample_world /\
        exists message, screen w' = (screen sample_world ++ [error message])%list
    end.
Proof.
  exact (load_data_never_raises disk_with_broken_primary sample_world).
Defined.

(** ** How the script ends *)

Lemma preprocess_years (d : DataFrame) :
  map Year (preprocess d) = map Year (restrict d).
Proof.
  unfold preprocess. rewrite handle_missing_rows, map_map. reflexivity.
Qed.

Lemma default_years_bound_years (cs : DataFrame) (lo hi y : Z) :
  default_years cs = Some (lo, hi) -> In y (map Year cs) -> lo <= y <= hi.
Proof.
  unfold default_years. intros Hdef Hy.
  destruct (py.min (years cs)) as [lo' |] eqn:Hlo; [| discriminate].
  destruct (py.max (years cs)) as [hi' |] eqn:Hhi; [| discriminate].
  injection Hdef as -> ->. apply years_In in Hy.
  split; [now apply (py_min_le _ _ Hlo) | now apply (py_max_ge _ _ Hhi)].
Qed.

Lemma default_years_attained (cs : DataFrame) (lo hi : Z) :
  default_years cs = Some (lo, hi) -> In lo (map Year cs) /\ In hi (map Year cs).
Proof.
  unfold default_years. intros Hdef.
  destruct (py.min (years cs)) as [lo' |] eqn:Hlo; [| discriminate].
  destruct (py.max (years cs)) as [hi' |] eqn:Hhi; [| discriminate].
  injection Hdef as -> ->.
  split; apply years_In; [now apply py_min_In | now apply py_max_In].
Qed.

(** Rows of two different years make the two ends of the slider differ. *)
Lemma default_years_span (d : DataFrame) (r1 r2 : Row) :
  In r1 (restrict d) -> In r2 (restrict d) -> Year r1 <> Year r2 ->
  exists dy, default_years (preprocess d) = Some dy /\ fst dy < snd dy.
Proof.
  intros H1 H2 Hne.
  assert (Hpre : preprocess d <> []).
  { intros H. apply preprocess_nil_iff in H. rewrite H in H1. contradiction. }
  apply default_years_defined in Hpre. destruct Hpre as [lo [hi Hdef]].
  exists (lo, hi). split; [assumption |]. simpl.
  assert (B1 : lo <= Year r1 <= hi).
  { apply (default_years_bound_years _ _ _ _ Hdef).
    rewrite preprocess_years. now apply in_map. }
  assert (B2 : lo <= Year r2 <= hi).
  { apply (default_years_bound_years _ _ _ _ Hdef).
    rewrite preprocess_years. now apply in_map. }
  lia.
Qed.

(** Rows that all have the year [y] make both ends [y]. *)
Lemma default_years_one_year (d : DataFrame) (y : Z) :
  restrict d <> [] -> (forall r, In r (restrict d) -> Year r = y) ->
  default_years (preprocess d) = Some (y, y).
Proof.
  intros Hne Hall.
  assert (Hpre : preprocess d <> []).
  { intros H. apply preprocess_nil_iff in H. contradiction. }
  apply default_years_defined in Hpre. destruct Hpre as [lo [hi Hdef]].
  destruct (default_years_attained _ _ _ Hdef) as [Hlo Hhi].
  rewrite preprocess_years, in_map_iff in Hlo, Hhi.
  destruct Hlo as [r1 [E1 Hr1]], Hhi as [r2 [E2 Hr2]].
  rewrite <- E1, <- E2, (Hall r1 Hr1), (Hall r2 Hr2) in Hdef. exact Hdef.
Qed.

Lemma default_mask_all (cs : DataFrame) (dy : Z * Z) (r : Row) :
  default_years cs = Some dy -> In r cs ->
  mask dy (disaster_options cs) r = true.
Proof.
  intros Hdef Hr. apply mask_spec.
  destruct dy as [lo hi]. split.
  - apply (default_years_bound_years cs lo hi); [assumption | now apply in_map].
  - apply disaster_options_In. now apply in_map.
Qed.

Lemma preprocess_length (d : DataFrame) :
  List.length (preprocess d) = List.length (restrict d).
Proof.
  unfold preprocess. rewrite handle_missing_rows. apply length_map.
Qed.

(** X4. A loaded file makes the script stop with an exception in three
    situations.  Without any row of an allow-listed type, [min(years)]
    raises ValueError.  With allow-listed rows that all have the same year,
    the year slider raises, its two bounds being equal.  With rows of
    several years but a selection that leaves no row, the bar plot of the
    empty type distribution raises IndexError.  In the first two cases the
    page stops at the sidebar header; in the third it has the widgets, the
    zero metrics and the empty trend chart, and neither heatmap nor
    table. *)
Theorem main_stops_with_exception (disk : Disk) (ui : UI) (d : DataFrame) :
  load_data disk world0 = loaded d world0 ->
  (restrict d = [] ->
   main disk ui world0
   = (Raise (empty_sequence "min"),
      mkWorld [d; []; []] (page_top ++ [sidebar_header "Filter Options"])
        ["Dataset loaded successfully"])) /\
  (forall y, restrict d <> [] -> (forall r, In r (restrict d) -> Year r = y) ->
   main disk ui world0
   = (Raise slider_error,
      mkWorld [d; restrict d; preprocess d]
        (page_top ++ [sidebar_header "Filter Options"])
        ["Dataset loaded successfully"])) /\
  (forall dy, default_years (preprocess d) = Some dy -> fst dy < snd dy ->
   filtered_df (preprocess d) (chosen_years ui dy)
     (chosen_types ui (disaster_options (preprocess d))) = [] ->
   main disk ui world0
   = (Raise index_error,
      mkWorld [d; restrict d; preprocess d; []]
        (page_top ++ sidebar_page (preprocess d) dy ++ page_until_bar)
        ["Dataset loaded successfully"])).
Proof.
  intros Hload. split; [| split].
  - now apply run_main_no_rows.
  - intros y Hne Hall. apply (run_main_one_year disk ui d y Hload).
    now apply default_years_one_year.
  - intros dy Hdef Hlt Hview. now apply run_main_empty_view.
Qed.

Lemma main_stops_with_exception_witness :
  fst (main disk_with_earthquakes untouched world0) = Raise (empty_sequence "min") /\
  fst (main disk_with_one_event untouched world0) = Raise slider_error /\
  fst (main disk_with_fallback floods_2002_2003 world0) = Raise index_error.
Proof.
  split; [| split].
  - rewrite (proj1 (main_stops_with_exception disk_with_earthquakes untouched
                      earthquakes eq_refl) eq_refl).
    reflexivity.
  - rewrite (proj1 (proj2 (main_stops_with_exception disk_with_one_event untouched
                             one_event eq_refl)) 2005).
    + reflexivity.
    + discriminate.
    + intros r [<- | []]. reflexivity.
  - rewrite (proj2 (proj2 (main_stops_with_exception disk_with_fallback
                             floods_2002_2003 two_events eq_refl))
               (1999, 2001) eq_refl).
    + reflexivity.
    + simpl. lia.
    + reflexivity.
Defined.

(** X5. When the allow-listed rows of the loaded file span more than one
    year and the widget values leave at least one row, the script ends
    normally: the loaded frame is untouched, the cleaned climate subset and
    the view filtered by the widget values are new objects, and the page
    shows the sidebar widgets with their bounds and options followed by the
    metrics, chart data and table of that view. *)
Theorem main_renders_chosen_view (disk : Disk) (ui : UI) (d : DataFrame) (dy : Z * Z) :
  load_data disk world0 = loaded d world0 ->
  default_years (preprocess d) = Some dy ->
  fst dy < snd dy ->
  filtered_df (preprocess d) (chosen_years ui dy)
    (chosen_types ui (disaster_options (preprocess d))) <> [] ->
  main disk ui world0
  = (Ok tt,
     mkWorld [d; restrict d; preprocess d;
              filtered_df (preprocess d) (chosen_years ui dy)
                (chosen_types ui (disaster_options (preprocess d)))]
       (page_top ++ sidebar_page (preprocess d) dy
        ++ view_page (filtered_df (preprocess d) (chosen_years ui dy)
                        (chosen_types ui (disaster_options (preprocess d)))))
       ["Dataset loaded successfully"]).
Proof.
  intros Hload Hdef Hlt Hview. now apply run_main_view.
Qed.

Lemma main_renders_chosen_view_witness :
  filtered_df (preprocess two_events) (2000, 2001) ["Storm"] <> [] /\
  main disk_with_fallback storms_2000_2001 world0
  = (Ok tt,
     mkWorld [two_events; restrict two_events; preprocess two_events;
              filtered_df (preprocess two_events) (2000, 2001) ["Storm"]]
       (page_top ++ sidebar_page (preprocess two_events) (1999, 2001)
        ++ view_page (filtered_df (preprocess two_events) (2000, 2001) ["Storm"]))
       ["Dataset loaded successfully"]).
Proof.
  assert (Hview : filtered_df (preprocess two_events) (2000, 2001) ["Storm"] <> [])
    by discriminate.
  split; [exact Hview |].
  apply (main_renders_chosen_view disk_with_fallback storms_2000_2001 two_events
           (1999, 2001)).
  - reflexivity.
  - reflexivity.
  - simpl. lia.
  - exact Hview.
Defined.

(** X16. On a run with both widgets untouched, a file whose allow-listed
    rows span more than one year is shown in full: the table is the whole
    cleaned climate subset, and the event count on the page is the number
    of allow-listed rows of the file. *)
Theorem main_first_load_shows_all (disk : Disk) (d : DataFrame) (r1 r2 : Row) :
  load_data disk world0 = loaded d world0 ->
  In r1 (restrict d) -> In r2 (restrict d) -> Year r1 <> Year r2 ->
  exists w',
    main disk untouched world0 = (Ok tt, w') /\
    nth_error (heap w') 3 = Some (preprocess d) /\
    In (dataframe (preprocess d)) (screen w') /\
    In (metric "Total Events" (num (Z.of_nat (List.length (restrict d))))) (screen w').
Proof.
  intros Hload H1 H2 Hne.
  destruct (default_years_span d r1 r2 H1 H2 Hne) as [dy [Hdef Hlt]].
  assert (Hid : filtered_df (preprocess d) (chosen_years untouched dy)
                  (chosen_types untouched (disaster_options (preprocess d)))
                = preprocess d).
  { unfold filtered_df, pd.getitem_mask. apply filter_all.
    intros r Hr. now apply default_mask_all. }
  assert (Hpre : preprocess d <> []).
  { intros H. apply preprocess_nil_iff in H. rewrite H in H1. contradiction. }
  rewrite (run_main_view disk untouched d dy Hload Hdef Hlt) by now rewrite Hid.
  rewrite Hid. eexists. split; [reflexivity |].
  cbn [heap screen]. split; [reflexivity |].
  split.
  - apply in_or_app. right. apply in_or_app. right.
    unfold view_page. simpl. tauto.
  - apply in_or_app. right. apply in_or_app. right.
    unfold view_page, total_events. rewrite preprocess_length. now left.
Qed.

Lemma main_first_load_shows_all_witness :
  exists w',
    main disk_with_fallback untouched world0 = (Ok tt, w') /\
    nth_error (heap w') 3 = Some (preprocess two_events) /\
    In (dataframe (preprocess two_events)) (screen w') /\
    In (metric "Total Events" (num (Z.of_nat (List.length (restrict two_events)))))
       (screen w').
Proof.
  apply (main_first_load_shows_all disk_with_fallback two_events
           (mkRow 2001 "Storm" (Some (num 1)) (Some (num 2)) (Some (num 3)))
           (mkRow 1999 "Flood" (Some (num 4)) (Some (num 5)) (Some (num 6)))).
  - reflexivity.
  - left. reflexivity.
  - right. left. reflexivity.
  - discriminate.
Defined.

Lemma correlation_nan_when_constant_on_pairs_witness :
  loc (correlation_matrix gappy_events) Affected Damages = Some pd.coef_nan.
Proof.
  apply correlation_nan_when_constant_on_pairs. left.
  intros r1 r2 v1 v2 H1 H2 Hx1 Hy1 Hx2 Hy2. simpl in H1, H2.
  destruct H1 as [<- | [<- | [<- | [<- | []]]]];
    destruct H2 as [<- | [<- | [<- | [<- | []]]]];
    simpl in *; congruence.
Defined.
